(** * Billing credit ledger and Creem webhook reconciliation

    A shallow embedding of the billing core of the FastAPI template
    (PostgreSQL variant):

    - [app/services/billing.py]: the cost model and [BillingService];
    - [app/repositories/billing.py]: the four stores;
    - [app/billing/providers/creem.py]: [verify_signature], [parse_event];
    - [app/api/routes/webhooks/creem.py]: [_resolve_pack_credits] and
      the [creem_webhook] handler.

    Conventions of the embedding.

    - Python [int] is [Z]; a Python [str] is a [string], one character
      per [ascii]; [bytes] is [list Byte.byte].
    - The floats of the cost computation are binary64 values
      ([spec_float] at precision 53 and exponent bound 1024): division
      and multiplication round to nearest, ties to even, and overflow
      to an infinity, as in Python.  The numbers of a decoded payload
      and the amounts made of them are the rationals they denote
      ([Q]).
    - [async]/[await] is sequential composition; code that touches the
      session is a function from the session state to a result and the
      state that follows, with Python exceptions as [Raise].
    - Row ids, timestamps and the limits of the column types (lengths,
      32-bit integers, numeric precision, the foreign key to [users])
      are not modelled. *)

From Stdlib Require Import ZArith QArith Qround Qpower String Ascii List Lia.
From Stdlib Require Import SpecFloat.
From stdpp Require Import gmap strings.

Set Warnings "-register-all".

Local Open Scope string_scope.
Local Open Scope Z_scope.

(** ** Python values *)

(** The values the handler computes with: what [json.loads] produces,
    and the dictionaries built from them.  A dictionary is kept in
    insertion order; [json.loads] yields string keys only, [dict.update]
    with a list of pairs can add keys of other types. *)
Inductive pyval : Type :=
| PNone
| PBool (b : bool)
| PInt (z : Z)
| PFloat (q : Q)
| PStr (s : string)
| PList (l : list pyval)
| PDict (d : list (pyval * pyval)).

Definition pydict : Type := list (pyval * pyval).

(** [bool(x)] *)
Definition truthy (x : pyval) : bool :=
  match x with
  | PNone => false
  | PBool b => b
  | PInt z => negb (Z.eqb z 0)
  | PFloat q => negb (Qeq_bool q 0)
  | PStr s => negb (String.eqb s "")
  | PList l => match l with [] => false | _ => true end
  | PDict d => match d with [] => false | _ => true end
  end.

(** [x or y], both already evaluated. *)
Definition py_or (x y : pyval) : pyval := if truthy x then x else y.

(** [x == s] for a string [s]. *)
Definition eq_str (x : pyval) (s : string) : bool :=
  match x with
  | PStr t => String.eqb t s
  | _ => false
  end.

(** Equality of dictionary keys: numbers and booleans compare by value. *)
Definition key_num (x : pyval) : option Q :=
  match x with
  | PBool b => Some (inject_Z (Z.b2z b))
  | PInt z => Some (inject_Z z)
  | PFloat q => Some q
  | _ => None
  end.

Definition key_eqb (a b : pyval) : bool :=
  match key_num a, key_num b with
  | Some x, Some y => Qeq_bool x y
  | None, None =>
      match a, b with
      | PNone, PNone => true
      | PStr s, PStr t => String.eqb s t
      | _, _ => false
      end
  | _, _ => false
  end.

Definition hashable (x : pyval) : bool :=
  match x with
  | PList _ | PDict _ => false
  | _ => true
  end.

(** [d.get(k, default)] for a string key. *)
Fixpoint dict_get_default (d : pydict) (k : string) (dflt : pyval) : pyval :=
  match d with
  | [] => dflt
  | (k', v) :: d' => if key_eqb k' (PStr k) then v else dict_get_default d' k dflt
  end.

(** [d.get(k)] *)
Definition dict_get (d : pydict) (k : string) : pyval := dict_get_default d k PNone.

(** [d[k] = v]: an existing key keeps its place and its key object. *)
Fixpoint dict_set (d : pydict) (k v : pyval) : pydict :=
  match d with
  | [] => [(k, v)]
  | (k', v') :: d' =>
      if key_eqb k' k then (k', v) :: d' else (k', v') :: dict_set d' k v
  end.

(** ** Exceptions and the session monad *)

Inductive exn : Type :=
| HTTPException (status_code : Z) (detail : string)
| PaymentRequiredError (required_credits available_credits : Z)
| UnicodeDecodeError
| JSONDecodeError
| AttributeError
| TypeError
| ValueError
| OverflowError
| DBAPIError
| IntegrityError.

Inductive result (A : Type) : Type :=
| Ok (a : A)
| Raise (e : exn).
Arguments Ok {A} a.
Arguments Raise {A} e.

Definition rbind {A B} (r : result A) (k : A -> result B) : result B :=
  match r with
  | Ok a => k a
  | Raise e => Raise e
  end.

Notation "x <~ c ;; k" := (rbind c (fun x => k))
  (at level 100, c at next level, right associativity).

(** ** Settings ([app/core/config.py]) *)

(** An entry of [BILLING_CREDIT_PACKS], at the shape of the configured
    dictionaries: [{"credits": int, "price_usd": float,
    "provider_product_id": str}]. *)
Record CreditPack : Type := {
  pack_credits : Z;
  pack_price_usd : Q;
  pack_provider_product_id : string;
}.

(** A Python [float]: a binary64 value. *)
Definition pyfloat : Type := spec_float.

(** [float(z)] for an [int] within the range of binary64. *)
Definition float_of_Z (z : Z) : pyfloat := binary_normalize 53 1024 z 0 false.

Record Settings : Type := {
  BILLING_MONTHLY_CREDITS : Z;
  BILLING_TOKENS_PER_CREDIT : Z;
  BILLING_CREDIT_PACKS : list CreditPack;
  BILLING_MODEL_MULTIPLIERS : gmap string pyfloat;
  CREEM_WEBHOOK_SECRET : string;
  CREEM_SUBSCRIPTION_PRODUCT_ID : string;
}.

(** The values [config.py] declares. *)
Definition default_settings : Settings := {|
  BILLING_MONTHLY_CREDITS := 50;
  BILLING_TOKENS_PER_CREDIT := 1000;
  BILLING_CREDIT_PACKS :=
    [ {| pack_credits := 2000; pack_price_usd := 99 # 10; pack_provider_product_id := "" |};
      {| pack_credits := 5000; pack_price_usd := 199 # 10; pack_provider_product_id := "" |} ];
  BILLING_MODEL_MULTIPLIERS := {[ "default" := float_of_Z 1 ]};
  CREEM_WEBHOOK_SECRET := "";
  CREEM_SUBSCRIPTION_PRODUCT_ID := "";
|}.

(** ** Rows ([app/db/models/billing.py]) *)

Definition UUID : Type := N.
Definition datetime : Type := Z.

Record CreditWallet : Type := {
  w_user_id : UUID;
  monthly_remaining : Z;
  prepaid_balance : Z;
}.

Record Subscription : Type := {
  s_user_id : UUID;
  s_provider : string;
  s_provider_subscription_id : option string;
  s_status : string;
  s_plan_name : option string;
  s_monthly_credits : Z;
  s_current_period_start : option datetime;
  s_current_period_end : option datetime;
  s_metadata : option pydict;
}.

Record TokenLedger : Type := {
  l_user_id : UUID;
  l_model_name : option string;
  l_prompt_tokens : option Z;
  l_completion_tokens : option Z;
  l_total_tokens : Z;
  cost_credits : Z;
  overage_credits : Z;
  l_provider_request_id : option string;
  l_metadata : option pydict;
}.

Record PaymentTransaction : Type := {
  t_user_id : UUID;
  t_provider : string;
  t_external_id : string;
  t_kind : string;
  t_status : string;
  t_amount : option Q;
  t_currency : option string;
  t_credits_granted : Z;
  t_metadata : option pydict;
}.

(** The four tables.  [credit_wallets] is unique on [user_id]: it is a
    map from the user id to the two balances of the user's row.
    [payment_transactions] is unique on [external_id]: it is a map from
    the external id to the row.  [subscriptions] and [token_ledgers]
    are lists, most recently created row first. *)
Record DB : Type := {
  credit_wallets : gmap N (Z * Z);
  subscriptions : list Subscription;
  token_ledgers : list TokenLedger;
  payment_transactions : gmap string PaymentTransaction;
}.

Definition empty_db : DB := {|
  credit_wallets := ∅;
  subscriptions := [];
  token_ledgers := [];
  payment_transactions := ∅;
|}.

(** A computation in a session: the result and the rows the session
    holds afterwards (flushed, not yet committed). *)
Definition Session (A : Type) : Type := DB -> result A * DB.

Definition sret {A} (a : A) : Session A := fun db => (Ok a, db).
Definition sraise {A} (e : exn) : Session A := fun db => (Raise e, db).
Definition sbind {A B} (c : Session A) (k : A -> Session B) : Session B :=
  fun db =>
    match c db with
    | (Ok a, db') => k a db'
    | (Raise e, db') => (Raise e, db')
    end.

Notation "x <- c ;; k" := (sbind c (fun x => k))
  (at level 100, c at next level, right associativity).
Notation "c ;;; k" := (sbind c (fun _ => k))
  (at level 100, right associativity).

Definition lift {A} (r : result A) : Session A := fun db => (r, db).

(** A value bound to a [String] column, or compared with one: the
    PostgreSQL driver takes a [str] or [None] and refuses anything else
    when the statement is executed. *)
Definition bind_string (x : pyval) : result (option string) :=
  match x with
  | PNone => Ok None
  | PStr s => Ok (Some s)
  | _ => Raise DBAPIError
  end.

(** ** Repository ([app/repositories/billing.py]) *)

Definition get_wallet_by_user_id (user_id : UUID) : Session (option CreditWallet) :=
  fun db =>
    (Ok (match credit_wallets db !! user_id with
         | Some (monthly, prepaid) =>
             Some {| w_user_id := user_id;
                     monthly_remaining := monthly;
                     prepaid_balance := prepaid |}
         | None => None
         end), db).

(** [db.add(wallet)] then [flush]: the insert violates the unique
    constraint on [user_id] when the user already has a wallet. *)
Definition create_wallet (user_id : UUID) (monthly prepaid : Z) : Session CreditWallet :=
  fun db =>
    let wallet := {| w_user_id := user_id;
                     monthly_remaining := monthly;
                     prepaid_balance := prepaid |} in
    match credit_wallets db !! user_id with
    | Some _ => (Raise IntegrityError, db)
    | None =>
        (Ok wallet,
         {| credit_wallets := <[user_id := (monthly, prepaid)]> (credit_wallets db);
            subscriptions := subscriptions db;
            token_ledgers := token_ledgers db;
            payment_transactions := payment_transactions db |})
    end.

(** The row of [wallet] takes the balances the object holds. *)
Definition update_wallet (wallet : CreditWallet) : Session CreditWallet :=
  fun db =>
    (Ok wallet,
     {| credit_wallets :=
          <[w_user_id wallet := (monthly_remaining wallet, prepaid_balance wallet)]>
            (credit_wallets db);
        subscriptions := subscriptions db;
        token_ledgers := token_ledgers db;
        payment_transactions := payment_transactions db |}).

(** [ORDER BY created_at DESC LIMIT 1] among the rows of the user. *)
Fixpoint latest_of (user_id : UUID) (rows : list Subscription) : option Subscription :=
  match rows with
  | [] => None
  | r :: rows' => if N.eqb (s_user_id r) user_id then Some r else latest_of user_id rows'
  end.

Definition get_latest_subscription (user_id : UUID) : Session (option Subscription) :=
  fun db => (Ok (latest_of user_id (subscriptions db)), db).

(** The latest row of the user, overwritten in place. *)
Fixpoint replace_latest (user_id : UUID) (new : Subscription) (rows : list Subscription)
  : list Subscription :=
  match rows with
  | [] => []
  | r :: rows' =>
      if N.eqb (s_user_id r) user_id then new :: rows'
      else r :: replace_latest user_id new rows'
  end.

Definition upsert_subscription (user_id : UUID) (provider : string)
    (provider_subscription_id : pyval) (status : string)
    (plan_name : pyval) (monthly_credits : Z)
    (current_period_start current_period_end : option datetime)
    (metadata : option pydict) : Session Subscription :=
  subscription <- get_latest_subscription user_id ;;
  provider_subscription_id <- lift (bind_string provider_subscription_id) ;;
  plan_name <- lift (bind_string plan_name) ;;
  match subscription with
  | Some old =>
      let subscription := {|
        s_user_id := s_user_id old;
        s_provider := provider;
        s_provider_subscription_id := provider_subscription_id;
        s_status := status;
        s_plan_name := plan_name;
        s_monthly_credits := monthly_credits;
        s_current_period_start := current_period_start;
        s_current_period_end := current_period_end;
        s_metadata := metadata |} in
      fun db =>
        (Ok subscription,
         {| credit_wallets := credit_wallets db;
            subscriptions := replace_latest user_id subscription (subscriptions db);
            token_ledgers := token_ledgers db;
            payment_transactions := payment_transactions db |})
  | None =>
      let subscription := {|
        s_user_id := user_id;
        s_provider := provider;
        s_provider_subscription_id := provider_subscription_id;
        s_status := status;
        s_plan_name := plan_name;
        s_monthly_credits := monthly_credits;
        s_current_period_start := current_period_start;
        s_current_period_end := current_period_end;
        s_metadata := metadata |} in
      fun db =>
        (Ok subscription,
         {| credit_wallets := credit_wallets db;
            subscriptions := subscription :: subscriptions db;
            token_ledgers := token_ledgers db;
            payment_transactions := payment_transactions db |})
  end.

Definition create_ledger_entry (user_id : UUID) (model_name : option string)
    (prompt_tokens completion_tokens : option Z) (total_tokens cost overage : Z)
    (provider_request_id : option string) (metadata : option pydict)
  : Session TokenLedger :=
  fun db =>
    let entry := {|
      l_user_id := user_id;
      l_model_name := model_name;
      l_prompt_tokens := prompt_tokens;
      l_completion_tokens := completion_tokens;
      l_total_tokens := total_tokens;
      cost_credits := cost;
      overage_credits := overage;
      l_provider_request_id := provider_request_id;
      l_metadata := metadata |} in
    (Ok entry,
     {| credit_wallets := credit_wallets db;
        subscriptions := subscriptions db;
        token_ledgers := entry :: token_ledgers db;
        payment_transactions := payment_transactions db |}).

(** [WHERE external_id = :external_id]; with [None] the comparison is
    [IS NULL], which no row satisfies: the column is not nullable. *)
Definition get_transaction_by_external_id (external_id : pyval)
  : Session (option PaymentTransaction) :=
  external_id <- lift (bind_string external_id) ;;
  match external_id with
  | Some external_id => fun db => (Ok (payment_transactions db !! external_id), db)
  | None => sret None
  end.

(** The insert fails when [external_id] is [None] (the column is not
    nullable) and when a row with that id exists (it is unique). *)
Definition create_transaction (user_id : UUID) (provider : string)
    (external_id : pyval) (kind status : string)
    (amount : option Q) (currency : pyval) (credits_granted : Z)
    (metadata : option pydict) : Session PaymentTransaction :=
  external_id <- lift (bind_string external_id) ;;
  currency <- lift (bind_string currency) ;;
  match external_id with
  | None => sraise IntegrityError
  | Some external_id =>
      fun db =>
        let transaction := {|
          t_user_id := user_id;
          t_provider := provider;
          t_external_id := external_id;
          t_kind := kind;
          t_status := status;
          t_amount := amount;
          t_currency := currency;
          t_credits_granted := credits_granted;
          t_metadata := metadata |} in
        match payment_transactions db !! external_id with
        | Some _ => (Raise IntegrityError, db)
        | None =>
            (Ok transaction,
             {| credit_wallets := credit_wallets db;
                subscriptions := subscriptions db;
                token_ledgers := token_ledgers db;
                payment_transactions :=
                  <[external_id := transaction]> (payment_transactions db) |})
        end
  end.

(** ** Service ([app/services/billing.py]) *)

Section BillingService.

Variable settings : Settings.

Definition get_model_multiplier (model_name : option string) : pyfloat :=
  let multipliers := BILLING_MODEL_MULTIPLIERS settings in
  let dflt := match multipliers !! "default" with
              | Some m => m
              | None => float_of_Z 1
              end in
  match model_name with
  | Some name =>
      if negb (String.eqb name "") then
        match multipliers !! name with
        | Some m => m
        | None => dflt
        end
      else dflt
  | None => dflt
  end.

(** [a / b] for two positive [int]: the quotient rounded to the
    nearest float, [OverflowError] when that is beyond the largest
    one. *)
Definition int_true_divide (a b : positive) : result pyfloat :=
  match SFdiv 53 1024 (S754_finite false a 0) (S754_finite false b 0) with
  | S754_infinity _ => Raise OverflowError
  | quotient => Ok quotient
  end.

(** [x * y] on floats. *)
Definition float_mul (x y : pyfloat) : pyfloat := SFmul 53 1024 x y.

(** The number a finite float stands for. *)
Definition float_value (x : pyfloat) : Q :=
  match x with
  | S754_finite s m e => (inject_Z (cond_Zopp s (Zpos m)) * Qpower 2 e)%Q
  | _ => 0%Q
  end.

(** [math.ceil(x)]: it raises on an infinity and on a NaN. *)
Definition math_ceil (x : pyfloat) : result Z :=
  match x with
  | S754_nan => Raise ValueError
  | S754_infinity _ => Raise OverflowError
  | _ => Ok (Qceiling (float_value x))
  end.

(** [calculate_cost_credits]: [total_tokens / tokens_per_credit] is a
    division of two positive [int]s, its product with the multiplier a
    product of floats. *)
Definition calculate_cost_credits (total_tokens : Z) (model_name : option string)
  : result Z :=
  if total_tokens <=? 0 then Ok 0
  else
    let tokens_per_credit := Z.max (BILLING_TOKENS_PER_CREDIT settings) 1 in
    let multiplier := get_model_multiplier model_name in
    quotient <~ int_true_divide (Z.to_pos total_tokens) (Z.to_pos tokens_per_credit) ;;
    math_ceil (float_mul quotient multiplier).

Definition get_wallet (user_id : UUID) : Session CreditWallet :=
  wallet <- get_wallet_by_user_id user_id ;;
  match wallet with
  | Some wallet => sret wallet
  | None => create_wallet user_id 0 0
  end.

Definition precheck (user_id : UUID) (model_name : option string) (estimated_tokens : Z)
  : Session Z :=
  wallet <- get_wallet user_id ;;
  cost <- lift (calculate_cost_credits estimated_tokens model_name) ;;
  let available := monthly_remaining wallet + prepaid_balance wallet in
  if available <? cost then sraise (PaymentRequiredError cost available)
  else sret cost.

Definition commit_usage (user_id : UUID) (model_name : option string)
    (prompt_tokens completion_tokens : option Z) (total_tokens : Z)
    (provider_request_id : option string) (metadata : option pydict)
  : Session TokenLedger :=
  wallet <- get_wallet user_id ;;
  cost <- lift (calculate_cost_credits total_tokens model_name) ;;
  let monthly_deducted := Z.min (monthly_remaining wallet) cost in
  let remaining := cost - monthly_deducted in
  let prepaid_deducted := Z.min (prepaid_balance wallet) remaining in
  let overage := cost - monthly_deducted - prepaid_deducted in
  let wallet := {| w_user_id := w_user_id wallet;
                   monthly_remaining := monthly_remaining wallet - monthly_deducted;
                   prepaid_balance := prepaid_balance wallet - prepaid_deducted |} in
  update_wallet wallet ;;;
  create_ledger_entry user_id model_name prompt_tokens completion_tokens
    total_tokens cost overage provider_request_id metadata.

Definition grant_monthly_allowance (user_id : UUID) (provider : string)
    (provider_subscription_id : pyval) (status : string)
    (plan_name : pyval)
    (current_period_start current_period_end : option datetime)
    (metadata : option pydict) : Session Subscription :=
  wallet <- get_wallet user_id ;;
  let wallet := {| w_user_id := w_user_id wallet;
                   monthly_remaining := BILLING_MONTHLY_CREDITS settings;
                   prepaid_balance := prepaid_balance wallet |} in
  update_wallet wallet ;;;
  upsert_subscription user_id provider provider_subscription_id status plan_name
    (BILLING_MONTHLY_CREDITS settings) current_period_start current_period_end metadata.

Definition apply_pack_purchase (user_id : UUID) (provider : string)
    (external_id : pyval) (credits : Z) (amount : option Q) (currency : pyval)
    (metadata : option pydict) : Session unit :=
  existing <- get_transaction_by_external_id external_id ;;
  match existing with
  | Some _ => sret tt
  | None =>
      wallet <- get_wallet user_id ;;
      let wallet := {| w_user_id := w_user_id wallet;
                       monthly_remaining := monthly_remaining wallet;
                       prepaid_balance := prepaid_balance wallet + credits |} in
      update_wallet wallet ;;;
      create_transaction user_id provider external_id "credit_pack" "completed"
        amount currency credits metadata ;;;
      sret tt
  end.

Definition record_subscription_payment (user_id : UUID) (provider : string)
    (external_id : pyval) (amount : option Q) (currency : pyval)
    (metadata : option pydict)
  : Session unit :=
  existing <- get_transaction_by_external_id external_id ;;
  match existing with
  | Some _ => sret tt
  | None =>
      create_transaction user_id provider external_id "subscription" "completed"
        amount currency (BILLING_MONTHLY_CREDITS settings) metadata ;;;
      sret tt
  end.

End BillingService.

(** ** Provider adapter ([app/billing/providers/creem.py]) *)

Section Webhook.

Variable settings : Settings.

(** Library functions the adapter and the handler call.
    [hmac_sha256_hexdigest key msg] is
    [hmac.new(key, msg, hashlib.sha256).hexdigest()]; [bytes_decode] and
    [json_loads] give [None] when [bytes.decode("utf-8")] and
    [json.loads] raise; [uuid_of_str] gives [None] when [UUID(hex)]
    raises [ValueError] on a string. *)
Variable hmac_sha256_hexdigest : list Byte.byte -> list Byte.byte -> string.
Variable str_encode : string -> list Byte.byte.
Variable bytes_decode : list Byte.byte -> option string.
Variable json_loads : string -> option pyval.
Variable uuid_of_str : string -> option UUID.

Definition is_ascii (s : string) : bool :=
  forallb (fun c => N.ltb (N_of_ascii c) 128) (list_ascii_of_string s).

(** [hmac.compare_digest] on two [str]: both must be ASCII. *)
Definition compare_digest (a b : string) : result bool :=
  if is_ascii a && is_ascii b then Ok (String.eqb a b) else Raise TypeError.

Definition verify_signature (payload : list Byte.byte) (signature secret : string)
  : result bool :=
  if String.eqb secret "" then Ok false
  else
    let computed := hmac_sha256_hexdigest (str_encode secret) payload in
    compare_digest computed signature.

Definition parse_event (payload : list Byte.byte) : result pyval :=
  match bytes_decode payload with
  | None => Raise UnicodeDecodeError
  | Some text =>
      match json_loads text with
      | None => Raise JSONDecodeError
      | Some event => Ok event
      end
  end.

(** ** Webhook handler ([app/api/routes/webhooks/creem.py]) *)

(** [x.get(k)]: only a [dict] has the method. *)
Definition py_get (x : pyval) (k : string) : result pyval :=
  match x with
  | PDict d => Ok (dict_get d k)
  | _ => Raise AttributeError
  end.

(** One element of the sequence given to [dict.update]: it must unpack
    into a key and a value. *)
Definition pair_of_item (item : pyval) : result (pyval * pyval) :=
  match item with
  | PList [k; v] => Ok (k, v)
  | PList _ => Raise ValueError
  | PStr (String a (String b EmptyString)) =>
      Ok (PStr (String a EmptyString), PStr (String b EmptyString))
  | PStr _ => Raise ValueError
  | PDict [(k1, _); (k2, _)] => Ok (k1, k2)
  | PDict _ => Raise ValueError
  | _ => Raise TypeError
  end.

Fixpoint update_from_items (d : pydict) (items : list pyval) : result pydict :=
  match items with
  | [] => Ok d
  | item :: items' =>
      kv <~ pair_of_item item ;;
      if hashable (fst kv) then update_from_items (dict_set d (fst kv) (snd kv)) items'
      else Raise TypeError
  end.

(** [d.update(other)] *)
Definition dict_update (d : pydict) (other : pyval) : result pydict :=
  match other with
  | PDict e => Ok (fold_left (fun acc kv => dict_set acc (fst kv) (snd kv)) e d)
  | PList items => update_from_items d items
  | PStr EmptyString => Ok d
  | PStr _ => Raise ValueError
  | _ => Raise TypeError
  end.

(** [x.update(other)]: only a [dict] has the method. *)
Definition py_update (x other : pyval) : result pyval :=
  match x with
  | PDict d => d' <~ dict_update d other ;; Ok (PDict d')
  | _ => Raise AttributeError
  end.

(** [float(z)] raises [OverflowError] from [2^1024 - 2^970] on. *)
Definition float_of_int (z : Z) : result Q :=
  if Z.abs z <? 2 ^ 1024 - 2 ^ 970 then Ok (inject_Z z) else Raise OverflowError.

(** [UUID(x)]: a value that is not a [str] has no [replace]. *)
Definition UUID_of (x : pyval) : result UUID :=
  match x with
  | PStr s =>
      match uuid_of_str s with
      | Some u => Ok u
      | None => Raise ValueError
      end
  | _ => Raise AttributeError
  end.

Definition _resolve_pack_credits (product_id : pyval) : option Z :=
  if negb (truthy product_id) then None
  else
    match find (fun pack => eq_str product_id (pack_provider_product_id pack))
               (BILLING_CREDIT_PACKS settings) with
    | Some pack => Some (pack_credits pack)
    | None => None
    end.

Record Request : Type := {
  body : list Byte.byte;
  creem_signature : option string;
}.

(** [request.headers.get(creem.CREEM_SIGNATURE_HEADER, "")] *)
Definition signature_header (request : Request) : string :=
  match creem_signature request with
  | Some v => v
  | None => ""
  end.

(** The dictionaries the handler returns. *)
Definition response : Type := list (string * string).

(** Modelled from the spec: [app.db.session.get_db_context] is not among
    the sources.  Each webhook delivery is one unit of work in a
    transactional session: what the body wrote is kept when it returns
    and undone when it raises. *)
Definition get_db_context {A} (body : Session A) : Session A :=
  fun db =>
    match body db with
    | (Ok a, db') => (Ok a, db')
    | (Raise e, _) => (Raise e, db)
    end.

(** What the handler has read from a [checkout.completed] event when it
    reaches [try]. *)
Record CheckoutFields : Type := {
  f_event : pyval;
  f_data : pyval;
  f_metadata : pyval;
  f_user_id_raw : pyval;
  f_product : pyval;
  f_product_id : pyval;
  f_billing_type : pyval;
  f_amount : option Q;
  f_currency : pyval;
}.

(** What the handler has read from a [checkout.completed] event when it
    opens the session. *)
Record Checkout : Type := {
  c_event : pyval;
  c_data : pyval;
  c_metadata : pydict;
  c_product : pyval;
  c_product_id : pyval;
  c_billing_type : pyval;
  c_amount : option Q;
  c_currency : pyval;
  c_user_id : UUID;
}.

(** The metadata of the checkout with that of its subscription merged
    into it: [metadata] after [metadata.update(subscription_meta)]. *)
Definition merged_metadata (data : pyval) : result pyval :=
  m <~ py_get data "metadata" ;;
  let metadata := py_or m (PDict []) in
  subscription <~ py_get data "subscription" ;;
  let subscription_meta := match subscription with
                           | PDict sd => dict_get sd "metadata"
                           | _ => PNone
                           end in
  if truthy subscription_meta then py_update metadata subscription_meta
  else Ok metadata.

(** [creem_webhook] up to [try]: an early response, or the values read
    from the event. *)
Definition read_fields (request : Request) : result (response + CheckoutFields) :=
  let payload := body request in
  let signature := signature_header request in
  valid <~ verify_signature payload signature (CREEM_WEBHOOK_SECRET settings) ;;
  if negb valid then Raise (HTTPException 400 "Invalid signature")
  else
    event <~ parse_event payload ;;
    event_type <~ py_get event "eventType" ;;
    if negb (eq_str event_type "checkout.completed") then
      Ok (inl [("status", "ignored")])
    else
      let data := match event with
                  | PDict d => dict_get_default d "object" (PDict [])
                  | _ => PNone
                  end in
      metadata <~ merged_metadata data ;;
      u1 <~ py_get metadata "user_id" ;;
      user_id_raw <~ (if truthy u1 then Ok u1 else py_get metadata "internal_customer_id") ;;
      if negb (truthy user_id_raw) then
        Ok (inl [("status", "ignored"); ("reason", "missing_user_id")])
      else
        p <~ py_get data "product" ;;
        let product := py_or p (PDict []) in
        o <~ py_get data "order" ;;
        let order := py_or o (PDict []) in
        product_id <~ py_get product "id" ;;
        b1 <~ py_get product "billing_type" ;;
        billing_type <~ (if truthy b1 then Ok b1 else py_get order "type") ;;
        amount_raw <~ py_get order "amount" ;;
        currency <~ py_get order "currency" ;;
        amount <~ match amount_raw with
                  | PInt z => f <~ float_of_int z ;; Ok (Some (f / 100)%Q)
                  | PBool b => Ok (Some (inject_Z (Z.b2z b) / 100)%Q)
                  | PFloat q => Ok (Some (q / 100)%Q)
                  | _ => Ok None
                  end ;;
        Ok (inr {| f_event := event; f_data := data; f_metadata := metadata;
                   f_user_id_raw := user_id_raw; f_product := product;
                   f_product_id := product_id; f_billing_type := billing_type;
                   f_amount := amount; f_currency := currency |}).

(** [creem_webhook] up to [async with get_db_context()]: the [try]
    around [UUID(user_id_raw)] comes last; [except ValueError] is the
    one handler of the function. *)
Definition read_event (request : Request) : result (response + Checkout) :=
  fields <~ read_fields request ;;
  match fields with
  | inl early => Ok (inl early)
  | inr f =>
      match UUID_of (f_user_id_raw f) with
      | Raise ValueError =>
          Ok (inl [("status", "ignored"); ("reason", "invalid_user_id")])
      | Raise e => Raise e
      | Ok user_id =>
          match f_metadata f with
          | PDict md =>
              Ok (inr {| c_event := f_event f; c_data := f_data f; c_metadata := md;
                         c_product := f_product f; c_product_id := f_product_id f;
                         c_billing_type := f_billing_type f; c_amount := f_amount f;
                         c_currency := f_currency f; c_user_id := user_id |})
          | _ => Raise AttributeError
          end
      end
  end.

(** The body of [async with get_db_context() as db], and the final
    [return]. *)
Definition dispatch (c : Checkout) : Session response :=
  let external_id := match c_event c with
                     | PDict d => dict_get_default d "id" (PStr "")
                     | _ => PNone
                     end in
  if eq_str (c_billing_type c) "recurring"
     || eq_str (c_product_id c) (CREEM_SUBSCRIPTION_PRODUCT_ID settings)
  then
    let provider_subscription_id :=
      match c_data c with
      | PDict d =>
          match dict_get d "subscription" with
          | PDict sd => dict_get sd "id"
          | _ => PNone
          end
      | _ => PNone
      end in
    plan_name <- lift (py_get (c_product c) "name") ;;
    grant_monthly_allowance settings (c_user_id c) "creem" provider_subscription_id
      "active" plan_name None None (Some (c_metadata c)) ;;;
    record_subscription_payment settings (c_user_id c) "creem" external_id
      (c_amount c) (c_currency c) (Some (c_metadata c)) ;;;
    sret [("status", "ok")]
  else
    match _resolve_pack_credits (c_product_id c) with
    | None | Some 0 => sret [("status", "ignored"); ("reason", "unknown_pack")]
    | Some credits =>
        apply_pack_purchase (c_user_id c) "creem" external_id credits
          (c_amount c) (c_currency c) (Some (c_metadata c)) ;;;
        sret [("status", "ok")]
    end.

Definition creem_webhook (request : Request) : Session response :=
  fun db =>
    match read_event request with
    | Raise e => (Raise e, db)
    | Ok (inl early) => (Ok early, db)
    | Ok (inr checkout) => get_db_context (dispatch checkout) db
    end.

End Webhook.

(** ** Views of the state and configurations used in the statements *)

(** The balances [get_wallet] reports for a user: those of the user's
    row, or of the zero-balance wallet it creates. *)
Definition balances (db : DB) (user_id : UUID) : Z * Z :=
  match credit_wallets db !! user_id with
  | Some b => b
  | None => (0, 0)
  end.

(** The state once [get_wallet] has run for a user. *)
Definition with_wallet (user_id : UUID) (db : DB) : DB :=
  match credit_wallets db !! user_id with
  | Some _ => db
  | None =>
      {| credit_wallets := <[user_id := (0, 0)]> (credit_wallets db);
         subscriptions := subscriptions db;
         token_ledgers := token_ledgers db;
         payment_transactions := payment_transactions db |}
  end.

(** An argument annotated [str | None], as a Python value. *)
Definition of_option (o : option string) : pyval :=
  match o with
  | Some s => PStr s
  | None => PNone
  end.

(** A configuration with a model that is not charged for and a model
    charged thirty times the default. *)
Definition free_model_settings : Settings := {|
  BILLING_MONTHLY_CREDITS := 50;
  BILLING_TOKENS_PER_CREDIT := 1000;
  BILLING_CREDIT_PACKS := [];
  BILLING_MODEL_MULTIPLIERS :=
    {[ "default" := float_of_Z 1; "local-model" := S754_zero false;
       "large-model" := float_of_Z 30 ]};
  CREEM_WEBHOOK_SECRET := "";
  CREEM_SUBSCRIPTION_PRODUCT_ID := "";
|}.

(** A configuration whose multipliers are not finite: [float("inf")]
    by default, [float("nan")] for one model. *)
Definition unbounded_settings : Settings := {|
  BILLING_MONTHLY_CREDITS := 50;
  BILLING_TOKENS_PER_CREDIT := 1000;
  BILLING_CREDIT_PACKS := [];
  BILLING_MODEL_MULTIPLIERS :=
    {[ "default" := S754_infinity false; "unknown-model" := S754_nan ]};
  CREEM_WEBHOOK_SECRET := "";
  CREEM_SUBSCRIPTION_PRODUCT_ID := "";
|}.

(** A state with one wallet and nothing else. *)
Definition wallet_db (user_id : UUID) (monthly prepaid : Z) : DB := {|
  credit_wallets := {[ user_id := (monthly, prepaid) ]};
  subscriptions := [];
  token_ledgers := [];
  payment_transactions := ∅;
|}.

(** A state in which the event [evt_1] is recorded as a subscription
    payment of user 2. *)
Definition recorded_db : DB := {|
  credit_wallets := {[ 2%N := (50, 0) ]};
  subscriptions := [];
  token_ledgers := [];
  payment_transactions :=
    {[ "evt_1" := {| t_user_id := 2%N; t_provider := "creem";
                     t_external_id := "evt_1"; t_kind := "subscription";
                     t_status := "completed"; t_amount := Some (99 # 10);
                     t_currency := Some "USD"; t_credits_granted := 50;
                     t_metadata := None |} ]};
|}.

(** ** A deployment used in the examples

    A configuration with a webhook secret, a subscription product and
    one credit pack, and stand-ins for the library functions: a digest
    that is the same for every message, a decoder that reads the bytes
    as characters, a JSON reader that knows four payloads by name and
    fails on every other text, and a UUID reader that knows one id. *)

Definition shop_settings : Settings := {|
  BILLING_MONTHLY_CREDITS := 50;
  BILLING_TOKENS_PER_CREDIT := 1000;
  BILLING_CREDIT_PACKS :=
    [ {| pack_credits := 2000; pack_price_usd := 99 # 10;
         pack_provider_product_id := "prod_pack_2000" |} ];
  BILLING_MODEL_MULTIPLIERS := {[ "default" := float_of_Z 1 ]};
  CREEM_WEBHOOK_SECRET := "whsec";
  CREEM_SUBSCRIPTION_PRODUCT_ID := "prod_sub";
|}.

Definition toy_hmac (key msg : list Byte.byte) : string := "c0ffee".

Definition toy_encode (s : string) : list Byte.byte := list_byte_of_string s.

Definition toy_decode (b : list Byte.byte) : option string :=
  Some (string_of_list_byte b).

Definition toy_uuid (s : string) : option UUID :=
  if String.eqb s "00000000-0000-0000-0000-000000000007" then Some 7%N else None.

Definition checkout_event (id user product_id billing_type plan : string) (amount : Z)
  : pyval :=
  PDict [
    (PStr "id", PStr id);
    (PStr "eventType", PStr "checkout.completed");
    (PStr "object", PDict [
       (PStr "metadata", PDict [(PStr "user_id", PStr user)]);
       (PStr "product", PDict [(PStr "id", PStr product_id);
                               (PStr "billing_type", PStr billing_type);
                               (PStr "name", PStr plan)]);
       (PStr "order", PDict [(PStr "amount", PInt amount);
                             (PStr "currency", PStr "USD")])])].

Definition subscription_event : pyval :=
  checkout_event "evt_1" "00000000-0000-0000-0000-000000000007"
    "prod_sub" "recurring" "Pro" 990.

Definition pack_event : pyval :=
  checkout_event "evt_2" "00000000-0000-0000-0000-000000000007"
    "prod_pack_2000" "onetime" "Pack" 990.

Definition upgrade_event : pyval :=
  checkout_event "evt_3" "00000000-0000-0000-0000-000000000007"
    "prod_sub" "recurring" "Max" 2990.

Definition refund_event : pyval :=
  PDict [(PStr "id", PStr "evt_4"); (PStr "eventType", PStr "refund.created")].

Definition toy_json (text : string) : option pyval :=
  if String.eqb text "subscription" then Some subscription_event
  else if String.eqb text "pack" then Some pack_event
  else if String.eqb text "upgrade" then Some upgrade_event
  else if String.eqb text "refund" then Some refund_event
  else None.

(** A delivery of the payload [text], signed. *)
Definition signed (text : string) : Request :=
  {| body := list_byte_of_string text; creem_signature := Some "c0ffee" |}.

Definition deliver (text : string) : Session response :=
  creem_webhook shop_settings toy_hmac toy_encode toy_decode toy_json toy_uuid
    (signed text).

(** A checkout of the subscription product as the provider sends it,
    with the subscription, the product and the order; the user id and
    the name of the plan are left open. *)
Definition full_checkout_event (id : string) (user plan : pyval) : pyval :=
  PDict [
    (PStr "id", PStr id);
    (PStr "eventType", PStr "checkout.completed");
    (PStr "object", PDict [
       (PStr "metadata", PDict [(PStr "user_id", user)]);
       (PStr "subscription", PDict [(PStr "id", PStr "sub_1");
                                    (PStr "metadata", PDict [(PStr "plan", PStr "pro")])]);
       (PStr "product", PDict [(PStr "id", PStr "prod_sub");
                               (PStr "billing_type", PStr "recurring");
                               (PStr "name", plan)]);
       (PStr "order", PDict [(PStr "amount", PInt 990);
                             (PStr "currency", PStr "USD")])])].

(** Such a checkout of user [not-a-uuid]. *)
Definition stray_event : pyval :=
  full_checkout_event "evt_5" (PStr "not-a-uuid") (PStr "Pro").

(** Such a checkout whose user id is the number 7. *)
Definition numeric_user_event : pyval :=
  full_checkout_event "evt_6" (PInt 7) (PStr "Pro").

(** Such a checkout of user 7 whose plan name is a number. *)
Definition numeric_plan_event : pyval :=
  full_checkout_event "evt_7" (PStr "00000000-0000-0000-0000-000000000007") (PInt 5).

(** [toy_json], reading these three events as well. *)
Definition toy_json' (text : string) : option pyval :=
  if String.eqb text "stray" then Some stray_event
  else if String.eqb text "numeric user" then Some numeric_user_event
  else if String.eqb text "numeric plan" then Some numeric_plan_event
  else toy_json text.

(** A signature header with a character that is not ASCII. *)
Definition latin1_signature : string := String (ascii_of_nat 233) "c0ffee".

(** ** Token estimates ([app/services/billing.py]) *)

Section Estimates.

(** [settings.BILLING_CHARS_PER_TOKEN] *)
Variable BILLING_CHARS_PER_TOKEN : Z.

Definition estimate_tokens_from_text (text : string) : Z :=
  if String.eqb text "" then 0
  else
    let chars_per_token := Z.max BILLING_CHARS_PER_TOKEN 1 in
    Z.max 1 (Qceiling (inject_Z (Z.of_nat (String.length text))
                       / inject_Z chars_per_token)%Q).

(** [msg.get("content", "")] on a message of the history, a
    [dict[str, str]]. *)
Fixpoint content_of (msg : list (string * string)) : string :=
  match msg with
  | [] => ""
  | (k, v) :: msg' => if String.eqb k "content" then v else content_of msg'
  end.

Definition estimate_prompt_tokens (history : list (list (string * string)))
    (user_message : string) : Z :=
  let total_chars :=
    fold_right Z.add 0
      (map (fun msg => Z.of_nat (String.length (content_of msg))) history)
    + Z.of_nat (String.length user_message) in
  if total_chars <=? 0 then 0
  else
    let chars_per_token := Z.max BILLING_CHARS_PER_TOKEN 1 in
    Z.max 1 (Qceiling (inject_Z total_chars / inject_Z chars_per_token)%Q).

End Estimates.

(** ** Reads of the ledger and of the subscription *)

(** [WHERE user_id = :user_id ORDER BY created_at DESC LIMIT :limit];
    PostgreSQL refuses a negative [LIMIT]. *)
Definition list_ledger_entries (user_id : UUID) (limit : Z) : Session (list TokenLedger) :=
  fun db =>
    if limit <? 0 then (Raise DBAPIError, db)
    else
      (Ok (take (Z.to_nat limit)
             (filter (fun entry => N.eqb (l_user_id entry) user_id = true)
                     (token_ledgers db))), db).

Definition get_subscription (user_id : UUID) : Session (option Subscription) :=
  get_latest_subscription user_id.

Definition list_ledger (user_id : UUID) (limit : Z) : Session (list TokenLedger) :=
  list_ledger_entries user_id limit.

(** ** Checkout ([create_checkout], [creem.create_checkout_session]) *)

(** The settings the checkout reads besides those of [Settings]. *)
Record CheckoutSettings : Type := {
  BILLING_PROVIDER : string;
  CREEM_API_KEY : option string;
  CREEM_API_BASE_URL : string;
  CREEM_SUCCESS_URL : string;
  CREEM_CANCEL_URL : string;
}.

Inductive checkout_exn : Type :=
| BadRequestError (message : string)
| ExternalServiceError (message : string) (status : option Z)
| HTTPError
| ResponseJSONError
| KeyError
| ResponseTypeError.

Inductive cresult (A : Type) : Type :=
| COk (a : A)
| CRaise (e : checkout_exn).
Arguments COk {A} a.
Arguments CRaise {A} e.

(** A request posted to the provider, and what comes of it:
    [client.post] raises, or gives a response whose [json()] may
    raise. *)
Record HttpRequest : Type := {
  req_url : string;
  req_json : pydict;
  req_headers : list (string * string);
}.

Inductive HttpOutcome : Type :=
| HttpFailed
| HttpResponse (status_code : Z) (text : string) (json : option pyval).

(** A computation that posts requests: the result and the requests
    sent so far, latest first. *)
Definition Http (A : Type) : Type := list HttpRequest -> cresult A * list HttpRequest.

(** [d[k]] for a string key. *)
Fixpoint dict_lookup (d : pydict) (k : string) : option pyval :=
  match d with
  | [] => None
  | (k', v) :: d' => if key_eqb k' (PStr k) then Some v else dict_lookup d' k
  end.

Section Checkout.

Variable settings : Settings.
Variable checkout_settings : CheckoutSettings.

(** The provider's answer to a request, and [str(user_id)]. *)
Variable creem_api : HttpRequest -> HttpOutcome.
Variable str_of_uuid : UUID -> string.

Definition create_checkout_session (product_id : string) (customer_email : option string)
    (metadata : option pydict) (success_url cancel_url : string) : Http pyval :=
  fun sent =>
    match CREEM_API_KEY checkout_settings with
    | None | Some "" =>
        (CRaise (ExternalServiceError "CREEM_API_KEY is not configured" None), sent)
    | Some api_key =>
        let payload :=
          [ (PStr "product_id", PStr product_id);
            (PStr "success_url", PStr success_url);
            (PStr "cancel_url", PStr cancel_url);
            (PStr "metadata", PDict (match metadata with Some m => m | None => [] end)) ] in
        let payload :=
          match customer_email with
          | None | Some "" => payload
          | Some email =>
              dict_set payload (PStr "customer") (PDict [(PStr "email", PStr email)])
          end in
        let request := {|
          req_url := String.append (CREEM_API_BASE_URL checkout_settings) "/v1/checkouts";
          req_json := payload;
          req_headers := [("x-api-key", api_key)] |} in
        match creem_api request with
        | HttpFailed => (CRaise HTTPError, request :: sent)
        | HttpResponse status_code text json =>
            if 400 <=? status_code then
              (CRaise (ExternalServiceError
                         (String.append "Creem checkout failed: " text) (Some status_code)),
               request :: sent)
            else
              match json with
              | None => (CRaise ResponseJSONError, request :: sent)
              | Some v => (COk v, request :: sent)
              end
        end
    end.

(** [requested_credits] is the argument [pack_credits] of the source. *)
Definition create_checkout (user_id : UUID) (user_email : option string) (kind : string)
    (requested_credits : option Z) : Http pyval :=
  fun sent =>
    let provider := BILLING_PROVIDER checkout_settings in
    if negb (String.eqb provider "creem") then
      (CRaise (BadRequestError
                 (String.append "Billing provider '"
                    (String.append provider "' not configured yet"))), sent)
    else
      let metadata := [(PStr "user_id", PStr (str_of_uuid user_id))] in
      let product :=
        if String.eqb kind "subscription" then
          let product_id := CREEM_SUBSCRIPTION_PRODUCT_ID settings in
          if String.eqb product_id "" then
            CRaise (BadRequestError "CREEM_SUBSCRIPTION_PRODUCT_ID is not set")
          else COk product_id
        else if String.eqb kind "credit_pack" then
          match requested_credits with
          | None =>
              CRaise (BadRequestError "pack_credits is required for credit_pack checkout")
          | Some wanted =>
              match find (fun item => pack_credits item =? wanted)
                         (BILLING_CREDIT_PACKS settings) with
              | None => CRaise (BadRequestError "Unknown credit pack selected")
              | Some pack =>
                  let product_id := pack_provider_product_id pack in
                  if String.eqb product_id "" then
                    CRaise (BadRequestError "Credit pack product_id is not configured")
                  else COk product_id
              end
          end
        else CRaise (BadRequestError "Invalid checkout type") in
      match product with
      | CRaise e => (CRaise e, sent)
      | COk product_id =>
          match create_checkout_session product_id user_email (Some metadata)
                  (CREEM_SUCCESS_URL checkout_settings)
                  (CREEM_CANCEL_URL checkout_settings) sent with
          | (CRaise e, sent') => (CRaise e, sent')
          | (COk (PDict response), sent') =>
              match dict_lookup response "checkout_url" with
              | Some url => (COk url, sent')
              | None => (CRaise KeyError, sent')
              end
          | (COk _, sent') => (CRaise ResponseTypeError, sent')
          end
      end.

End Checkout.

(** A [checkout.completed] event that names no user, neither in its
    metadata nor in that of its subscription. *)
Definition anonymous_event : pyval :=
  PDict [
    (PStr "id", PStr "evt_8");
    (PStr "eventType", PStr "checkout.completed");
    (PStr "object", PDict [
       (PStr "metadata", PDict [(PStr "order_ref", PStr "A-17")]);
       (PStr "subscription", PDict [(PStr "id", PStr "sub_1");
                                    (PStr "metadata", PDict [(PStr "plan", PStr "pro");
                                                             (PStr "user_id", PStr "")])]);
       (PStr "product", PDict [(PStr "id", PStr "prod_sub");
                               (PStr "billing_type", PStr "recurring");
                               (PStr "name", PStr "Pro")]);
       (PStr "order", PDict [(PStr "amount", PInt 990);
                             (PStr "currency", PStr "USD")])])].

(** A checkout configuration, and a provider that answers every
    request with a checkout URL. *)
Definition shop_checkout_settings : CheckoutSettings := {|
  BILLING_PROVIDER := "creem";
  CREEM_API_KEY := Some "key_live";
  CREEM_API_BASE_URL := "https://api.creem.io";
  CREEM_SUCCESS_URL := "http://localhost:3000/billing?status=success";
  CREEM_CANCEL_URL := "http://localhost:3000/billing?status=cancel";
|}.

Definition toy_creem_api (request : HttpRequest) : HttpOutcome :=
  HttpResponse 200 "" (Some (PDict [(PStr "checkout_url", PStr "https://creem.io/c/1")])).

Definition toy_str_of_uuid (u : UUID) : string :=
  "00000000-0000-0000-0000-000000000007".

(** A float that is a zero or a positive finite number. *)
Definition not_negative (x : pyfloat) : bool :=
  match x with
  | S754_zero _ | S754_finite false _ _ => true
  | _ => false
  end.

(** * Properties *)

(** ** Cost model *)

Section CostModel.

Variable settings : Settings.




Lemma calculate_cost_credits_nonpositive (total_tokens : Z) (model_name : option string) :
  total_tokens <= 0 -> calculate_cost_credits settings total_tokens model_name = Ok 0.
Proof.
  intros Ht. unfold calculate_cost_credits.
  destruct (Z.leb_spec total_tokens 0); [reflexivity | lia].
Qed.

Lemma calculate_cost_credits_raises (total_tokens : Z) (model_name : option string)
    (e : exn) :
  calculate_cost_credits settings total_tokens model_name = Raise e ->
  e = OverflowError \/ e = ValueError.
Proof.
  unfold calculate_cost_credits.
  destruct (total_tokens <=? 0); [discriminate |].
  destruct (int_true_divide _ _) as [q | e'] eqn:Hq; simpl.
  - destruct (float_mul q _); simpl; intros [= <-]; auto.
  - intros [= <-]. unfold int_true_divide in Hq.
    destruct (SFdiv _ _ _ _); try discriminate. injection Hq as <-. auto.
Qed.


End CostModel.



(** ** Wallet access *)

Lemma get_wallet_run (user_id : UUID) (db : DB) :
  get_wallet user_id db =
  (Ok {| w_user_id := user_id;
         monthly_remaining := fst (balances db user_id);
         prepaid_balance := snd (balances db user_id) |},
   with_wallet user_id db).
Proof.
  unfold get_wallet, sbind, get_wallet_by_user_id, create_wallet, balances, with_wallet.
  destruct (credit_wallets db !! user_id) as [[m p] |] eqn:E; simpl.
  - reflexivity.
  - rewrite E. reflexivity.
Qed.

Lemma balances_with_wallet (user_id other : UUID) (db : DB) :
  balances (with_wallet user_id db) other = balances db other.
Proof.
  unfold balances, with_wallet.
  destruct (credit_wallets db !! user_id) eqn:E; [reflexivity |]. simpl.
  destruct (decide (user_id = other)) as [-> | Hne].
  - rewrite lookup_insert_eq, E. reflexivity.
  - rewrite lookup_insert_ne by exact Hne. reflexivity.
Qed.

Lemma with_wallet_other_tables (user_id : UUID) (db : DB) :
  subscriptions (with_wallet user_id db) = subscriptions db /\
  token_ledgers (with_wallet user_id db) = token_ledgers db /\
  payment_transactions (with_wallet user_id db) = payment_transactions db.
Proof.
  unfold with_wallet. destruct (credit_wallets db !! user_id); repeat split.
Qed.

Lemma with_wallet_existing (user_id : UUID) (db : DB) (b : Z * Z) :
  credit_wallets db !! user_id = Some b -> with_wallet user_id db = db.
Proof. intros E. unfold with_wallet. rewrite E. reflexivity. Qed.

Lemma balances_insert (db : DB) (user_id : UUID) (b : Z * Z) subs led txs :
  balances {| credit_wallets := <[user_id := b]> (credit_wallets db);
              subscriptions := subs; token_ledgers := led;
              payment_transactions := txs |} user_id = b.
Proof. unfold balances. simpl. rewrite lookup_insert_eq. reflexivity. Qed.

(** ** Usage commit *)

Section Commit.

Variable settings : Settings.

(** C1: from non-negative balances and for a usage whose cost is
    computed, [commit_usage] returns a ledger entry (it does not
    raise), takes [min(monthly_remaining, cost)] from
    the monthly allowance, then [min(prepaid_balance, rest)] from the
    prepaid balance, records what is left as overage, so that the three
    parts add up to the cost, and leaves both balances non-negative. *)
Theorem commit_usage_conservation (db : DB) (user_id : UUID)
    (model_name : option string) (prompt_tokens completion_tokens : option Z)
    (total_tokens : Z) (provider_request_id : option string)
    (metadata : option pydict) (monthly prepaid cost : Z) :
  balances db user_id = (monthly, prepaid) ->
  0 <= monthly -> 0 <= prepaid ->
  calculate_cost_credits settings total_tokens model_name = Ok cost ->
  let monthly_deducted := Z.min monthly cost in
  let prepaid_deducted := Z.min prepaid (cost - monthly_deducted) in
  exists entry db',
    commit_usage settings user_id model_name prompt_tokens completion_tokens
      total_tokens provider_request_id metadata db = (Ok entry, db') /\
    balances db' user_id = (monthly - monthly_deducted, prepaid - prepaid_deducted) /\
    cost_credits entry = cost /\
    overage_credits entry = cost - monthly_deducted - prepaid_deducted /\
    monthly_deducted + prepaid_deducted + overage_credits entry = cost_credits entry /\
    0 <= monthly - monthly_deducted /\
    0 <= prepaid - prepaid_deducted /\
    token_ledgers db' = entry :: token_ledgers db.
Proof.
  intros Hb Hm Hp Hcost. cbv zeta.
  unfold commit_usage, sbind, lift. rewrite get_wallet_run, Hcost, Hb. simpl.
  eexists. eexists. split; [reflexivity |].
  split; [apply balances_insert |]. simpl.
  repeat split; try first [reflexivity | lia].
  f_equal. apply with_wallet_other_tables.
Qed.

(** C9: for [total_tokens <= 0] the cost is 0; [commit_usage] still
    appends and returns a ledger entry, with [cost_credits = 0] and
    [overage_credits = 0], and the balances of the user (non-negative,
    as the wallet invariant has them) are what they were. *)
Theorem commit_usage_zero_cost (db : DB) (user_id : UUID)
    (model_name : option string) (prompt_tokens completion_tokens : option Z)
    (total_tokens : Z) (provider_request_id : option string)
    (metadata : option pydict) :
  total_tokens <= 0 ->
  0 <= fst (balances db user_id) -> 0 <= snd (balances db user_id) ->
  exists entry db',
    commit_usage settings user_id model_name prompt_tokens completion_tokens
      total_tokens provider_request_id metadata db = (Ok entry, db') /\
    cost_credits entry = 0 /\
    overage_credits entry = 0 /\
    l_user_id entry = user_id /\
    l_total_tokens entry = total_tokens /\
    token_ledgers db' = entry :: token_ledgers db /\
    (forall other, balances db' other = balances db other).
Proof.
  intros Ht Hm Hp.
  unfold commit_usage, sbind, lift. rewrite get_wallet_run.
  rewrite (calculate_cost_credits_nonpositive settings _ _ Ht). simpl.
  eexists. eexists. split; [reflexivity |]. simpl.
  repeat split; try first [reflexivity | lia].
  { f_equal. apply with_wallet_other_tables. }
  intros other. unfold balances at 1. simpl.
  destruct (decide (user_id = other)) as [<- | Hne].
  - rewrite lookup_insert_eq.
    destruct (balances db user_id) as [m p] eqn:E. simpl in *.
    f_equal; lia.
  - rewrite lookup_insert_ne by exact Hne.
    apply (balances_with_wallet user_id other db).
Qed.

End Commit.

(** C1, witness: the wallet [{monthly_remaining: 2, prepaid_balance: 1}]
    charged 5 credits ends at [{0, 0}] with an overage of 2. *)
Lemma commit_usage_conservation_witness :
  exists entry db',
    commit_usage default_settings 1%N None None None 5000 None None (wallet_db 1%N 2 1)
      = (Ok entry, db') /\
    balances db' 1%N = (0, 0) /\
    cost_credits entry = 5 /\
    overage_credits entry = 2.
Proof.
  destruct (commit_usage_conservation default_settings (wallet_db 1%N 2 1) 1%N
              None None None 5000 None None 2 1 5 eq_refl ltac:(lia) ltac:(lia)
              ltac:(vm_compute; reflexivity))
    as (entry & db' & Hrun & Hbal & Hcost & Hover & _).
  exists entry, db'. split; [exact Hrun |].
  split; [rewrite Hbal; vm_compute; reflexivity |].
  split; [rewrite Hcost; vm_compute; reflexivity |].
  rewrite Hover. vm_compute. reflexivity.
Defined.

(** C9, witness: a commit of 0 tokens against the wallet [{50, 7}]. *)
Lemma commit_usage_zero_cost_witness :
  exists entry db',
    commit_usage default_settings 1%N None None None 0 None None (wallet_db 1%N 50 7)
      = (Ok entry, db') /\
    cost_credits entry = 0 /\
    overage_credits entry = 0 /\
    token_ledgers db' = [entry] /\
    balances db' 1%N = (50, 7).
Proof.
  destruct (commit_usage_zero_cost default_settings (wallet_db 1%N 50 7) 1%N
              None None None 0 None None ltac:(lia) ltac:(vm_compute; discriminate)
              ltac:(vm_compute; discriminate))
    as (entry & db' & Hrun & Hcost & Hover & _ & _ & Hled & Hbal).
  exists entry, db'. repeat split; try assumption.
  rewrite Hbal. reflexivity.
Defined.

(** ** Monthly allowance *)

Section Grant.

Variable settings : Settings.

Lemma grant_monthly_allowance_balances (db : DB) (user_id : UUID)
    (provider : string) (provider_subscription_id : pyval) (status : string)
    (plan_name : pyval) (current_period_start current_period_end : option datetime)
    (metadata : option pydict) :
  balances (snd (grant_monthly_allowance settings user_id provider
                   provider_subscription_id status plan_name
                   current_period_start current_period_end metadata db)) user_id
  = (BILLING_MONTHLY_CREDITS settings, snd (balances db user_id)).
Proof.
  unfold grant_monthly_allowance, sbind. rewrite get_wallet_run. simpl.
  unfold upsert_subscription, sbind, get_latest_subscription, lift. simpl.
  destruct (bind_string provider_subscription_id); simpl;
    [destruct (bind_string plan_name); simpl;
     [destruct (latest_of user_id _); simpl |] |];
    apply balances_insert.
Qed.

Lemma grant_monthly_allowance_returns (db : DB) (user_id : UUID)
    (provider : string) (provider_subscription_id : option string) (status : string)
    (plan_name : option string) (current_period_start current_period_end : option datetime)
    (metadata : option pydict) :
  exists subscription,
    fst (grant_monthly_allowance settings user_id provider
           (of_option provider_subscription_id) status (of_option plan_name)
           current_period_start current_period_end metadata db) = Ok subscription /\
    s_monthly_credits subscription = BILLING_MONTHLY_CREDITS settings.
Proof.
  unfold grant_monthly_allowance, sbind. rewrite get_wallet_run. simpl.
  unfold upsert_subscription, sbind, get_latest_subscription, lift. simpl.
  destruct provider_subscription_id, plan_name; simpl;
    destruct (latest_of user_id _); simpl; eexists; split; reflexivity.
Qed.

(** C5: [grant_monthly_allowance] returns the subscription and sets
    [monthly_remaining] to [BILLING_MONTHLY_CREDITS] whatever it was,
    leaving [prepaid_balance] as it was; a second grant right after the
    first leaves the balances of the first. *)
Theorem grant_monthly_allowance_resets (db : DB) (user_id : UUID)
    (provider : string) (provider_subscription_id : option string) (status : string)
    (plan_name : option string) (current_period_start current_period_end : option datetime)
    (metadata : option pydict)
    (provider' : string) (provider_subscription_id' : option string) (status' : string)
    (plan_name' : option string) (current_period_start' current_period_end' : option datetime)
    (metadata' : option pydict) :
  let once := grant_monthly_allowance settings user_id provider
                (of_option provider_subscription_id) status (of_option plan_name)
                current_period_start current_period_end metadata db in
  let twice := grant_monthly_allowance settings user_id provider'
                 (of_option provider_subscription_id') status' (of_option plan_name')
                 current_period_start' current_period_end' metadata' (snd once) in
  (exists subscription,
      fst once = Ok subscription /\
      s_monthly_credits subscription = BILLING_MONTHLY_CREDITS settings) /\
  balances (snd once) user_id
    = (BILLING_MONTHLY_CREDITS settings, snd (balances db user_id)) /\
  balances (snd twice) user_id = balances (snd once) user_id.
Proof.
  cbv zeta. split; [apply grant_monthly_allowance_returns |].
  split; [apply grant_monthly_allowance_balances |].
  rewrite !grant_monthly_allowance_balances. reflexivity.
Qed.

End Grant.

(** ** Payment transactions *)

Lemma apply_pack_purchase_recorded (db : DB) (user_id : UUID) (provider : string)
    (external_id : string) (credits : Z) (amount : option Q) (currency : pyval)
    (metadata : option pydict) (row : PaymentTransaction) :
  payment_transactions db !! external_id = Some row ->
  apply_pack_purchase user_id provider (PStr external_id) credits amount currency
    metadata db = (Ok tt, db).
Proof.
  intros E. unfold apply_pack_purchase, sbind, get_transaction_by_external_id, lift.
  simpl. rewrite E. reflexivity.
Qed.

Lemma record_subscription_payment_recorded (settings : Settings) (db : DB)
    (user_id : UUID) (provider : string) (external_id : string) (amount : option Q)
    (currency : pyval) (metadata : option pydict) (row : PaymentTransaction) :
  payment_transactions db !! external_id = Some row ->
  record_subscription_payment settings user_id provider (PStr external_id) amount
    currency metadata db = (Ok tt, db).
Proof.
  intros E. unfold record_subscription_payment, sbind, get_transaction_by_external_id, lift.
  simpl. rewrite E. reflexivity.
Qed.

Lemma apply_pack_purchase_fresh (db : DB) (user_id : UUID) (provider : string)
    (external_id : string) (credits : Z) (amount : option Q) (currency : option string)
    (metadata : option pydict) :
  payment_transactions db !! external_id = None ->
  apply_pack_purchase user_id provider (PStr external_id) credits amount
    (of_option currency) metadata db
  = (Ok tt,
     {| credit_wallets :=
          <[user_id := (fst (balances db user_id), snd (balances db user_id) + credits)]>
            (credit_wallets (with_wallet user_id db));
        subscriptions := subscriptions db;
        token_ledgers := token_ledgers db;
        payment_transactions :=
          <[external_id := {| t_user_id := user_id; t_provider := provider;
                              t_external_id := external_id; t_kind := "credit_pack";
                              t_status := "completed"; t_amount := amount;
                              t_currency := currency; t_credits_granted := credits;
                              t_metadata := metadata |}]>
            (payment_transactions db) |}).
Proof.
  intros E. unfold apply_pack_purchase, sbind, get_transaction_by_external_id, lift.
  simpl. rewrite E, get_wallet_run. simpl.
  unfold create_transaction, sbind, lift. simpl.
  destruct (with_wallet_other_tables user_id db) as (Hs & Hl & Ht).
  destruct currency; simpl; rewrite Ht, E, Hs, Hl; reflexivity.
Qed.

(** C2: [apply_pack_purchase] returns normally; after it, any call
    with the same [external_id] leaves every store as it is; the
    prepaid balance of the user has grown by [credits] if no
    transaction with that id was recorded before the first call, and
    not at all otherwise: two calls change it exactly once. *)
Theorem apply_pack_purchase_idempotent (db : DB) (user_id : UUID) (provider : string)
    (external_id : string) (credits : Z) (amount : option Q) (currency : option string)
    (metadata : option pydict) :
  let first := apply_pack_purchase user_id provider (PStr external_id) credits amount
                 (of_option currency) metadata db in
  fst first = Ok tt /\
  (forall user_id' provider' credits' amount' currency' metadata',
      apply_pack_purchase user_id' provider' (PStr external_id) credits' amount'
        currency' metadata' (snd first) = (Ok tt, snd first)) /\
  balances (snd first) user_id
    = (fst (balances db user_id),
       snd (balances db user_id)
       + match payment_transactions db !! external_id with
         | Some _ => 0
         | None => credits
         end).
Proof.
  cbv zeta.
  destruct (payment_transactions db !! external_id) as [row |] eqn:E.
  - rewrite (apply_pack_purchase_recorded _ _ _ _ _ _ _ _ _ E). simpl.
    split; [reflexivity |]. split.
    + intros. apply (apply_pack_purchase_recorded _ _ _ _ _ _ _ _ _ E).
    + destruct (balances db user_id). simpl. f_equal. lia.
  - rewrite (apply_pack_purchase_fresh _ _ _ _ _ _ _ _ E). simpl.
    split; [reflexivity |]. split.
    + intros. eapply apply_pack_purchase_recorded. simpl. apply lookup_insert_eq.
    + apply balances_insert.
Qed.

(** C10: the guard looks at [external_id] alone.  When a transaction
    with that id is recorded, whoever its user and whatever its kind,
    [apply_pack_purchase] and [record_subscription_payment] return
    without changing any store: no credits are granted. *)
Theorem idempotency_guard_keyed_on_external_id (settings : Settings) (db : DB)
    (row : PaymentTransaction) (user_id : UUID) (provider : string)
    (external_id : string) (credits : Z) (amount : option Q) (currency : pyval)
    (metadata : option pydict) :
  payment_transactions db !! external_id = Some row ->
  apply_pack_purchase user_id provider (PStr external_id) credits amount currency
    metadata db = (Ok tt, db) /\
  record_subscription_payment settings user_id provider (PStr external_id) amount
    currency metadata db = (Ok tt, db).
Proof.
  intros E. split.
  - eapply apply_pack_purchase_recorded. exact E.
  - eapply record_subscription_payment_recorded. exact E.
Qed.

(** C10, witness: [evt_1] is recorded as a subscription payment of
    user 2; a pack purchase of user 1 under that id grants nothing. *)
Lemma idempotency_guard_keyed_on_external_id_witness :
  apply_pack_purchase 1%N "creem" (PStr "evt_1") 2000 None PNone None recorded_db
    = (Ok tt, recorded_db) /\
  record_subscription_payment default_settings 1%N "creem" (PStr "evt_1") None PNone
    None recorded_db = (Ok tt, recorded_db).
Proof.
  eapply (idempotency_guard_keyed_on_external_id default_settings recorded_db).
  vm_compute. reflexivity.
Defined.

(** ** Precheck *)

Section Precheck.

Variable settings : Settings.

Lemma precheck_run (db : DB) (user_id : UUID) (model_name : option string)
    (estimated_tokens : Z) :
  precheck settings user_id model_name estimated_tokens db =
  (match calculate_cost_credits settings estimated_tokens model_name with
   | Ok cost =>
       if fst (balances db user_id) + snd (balances db user_id) <? cost
       then Raise (PaymentRequiredError cost
                     (fst (balances db user_id) + snd (balances db user_id)))
       else Ok cost
   | Raise e => Raise e
   end,
   with_wallet user_id db).
Proof.
  unfold precheck, sbind, lift. rewrite get_wallet_run. simpl.
  destruct (calculate_cost_credits settings estimated_tokens model_name) as [cost | e];
    [| reflexivity].
  destruct (_ <? _); reflexivity.
Qed.

(** C6, as amended: [precheck] raises the payment-required error, with
    [required_credits = cost] and [available_credits = monthly_remaining
    + prepaid_balance], exactly when the available credits are below the
    cost, and returns the cost otherwise; an exception of the cost
    computation is raised as it is.  It deducts nothing: in every
    outcome the balances of every user are what they were, and the
    subscriptions, the ledger and the transactions are untouched.  Its
    one possible write is that of [get_wallet]: a user without a wallet
    gets a row with zero balances; when the user has a wallet the state
    is unchanged. *)
Theorem precheck_checks_without_deducting (db : DB) (user_id : UUID)
    (model_name : option string) (estimated_tokens : Z) :
  let available := fst (balances db user_id) + snd (balances db user_id) in
  let run := precheck settings user_id model_name estimated_tokens db in
  (forall cost,
      calculate_cost_credits settings estimated_tokens model_name = Ok cost ->
      (available < cost -> fst run = Raise (PaymentRequiredError cost available)) /\
      (cost <= available -> fst run = Ok cost)) /\
  (forall e,
      calculate_cost_credits settings estimated_tokens model_name = Raise e ->
      fst run = Raise e) /\
  snd run = with_wallet user_id db /\
  (forall other, balances (snd run) other = balances db other) /\
  subscriptions (snd run) = subscriptions db /\
  token_ledgers (snd run) = token_ledgers db /\
  payment_transactions (snd run) = payment_transactions db /\
  (forall b, credit_wallets db !! user_id = Some b -> snd run = db) /\
  (credit_wallets db !! user_id = None ->
   credit_wallets (snd run) = <[user_id := (0, 0)]> (credit_wallets db)).
Proof.
  cbv zeta. rewrite precheck_run. simpl.
  destruct (with_wallet_other_tables user_id db) as (Hs & Hl & Ht).
  split; [| split; [| repeat split; try assumption]].
  - intros cost ->. split; intros H.
    + destruct (Z.ltb_spec (fst (balances db user_id) + snd (balances db user_id)) cost);
        [reflexivity | lia].
    + destruct (Z.ltb_spec (fst (balances db user_id) + snd (balances db user_id)) cost);
        [lia | reflexivity].
  - intros e ->. reflexivity.
  - intros other. apply balances_with_wallet.
  - intros b E. eapply with_wallet_existing. exact E.
  - intros E. unfold with_wallet. rewrite E. reflexivity.
Qed.

End Precheck.

(** C6, counterexample: for a user without a wallet [precheck] returns
    the cost and leaves a wallet row behind: a store write. *)
Lemma precheck_creates_wallet :
  precheck default_settings 1%N None 0 empty_db = (Ok 0, wallet_db 1%N 0 0) /\
  credit_wallets empty_db !! 1%N = None /\
  credit_wallets (wallet_db 1%N 0 0) !! 1%N = Some (0, 0).
Proof. vm_compute. repeat split. Qed.

(** C6, witness: 3 credits available, 5 required. *)
Lemma precheck_checks_without_deducting_witness :
  precheck default_settings 1%N None 5000 (wallet_db 1%N 2 1)
  = (Raise (PaymentRequiredError 5 3), wallet_db 1%N 2 1).
Proof.
  pose proof (precheck_checks_without_deducting default_settings (wallet_db 1%N 2 1)
                1%N None 5000) as H.
  cbv zeta in H. destruct H as (Hraise & _ & _ & _ & _ & _ & _ & Hsame & _).
  specialize (Hraise 5 ltac:(vm_compute; reflexivity)). destruct Hraise as [Hraise _].
  specialize (Hraise ltac:(vm_compute; reflexivity)).
  specialize (Hsame (2, 1) eq_refl).
  rewrite (surjective_pairing (precheck default_settings 1%N None 5000 (wallet_db 1%N 2 1))).
  rewrite Hraise, Hsame. vm_compute. reflexivity.
Defined.

(** ** Webhook handler *)

Section WebhookProperties.

Variable settings : Settings.
Variable hmac_sha256_hexdigest : list Byte.byte -> list Byte.byte -> string.
Variable str_encode : string -> list Byte.byte.
Variable bytes_decode : list Byte.byte -> option string.
Variable json_loads : string -> option pyval.
Variable uuid_of_str : string -> option UUID.

Let handler : Request -> Session response :=
  creem_webhook settings hmac_sha256_hexdigest str_encode bytes_decode json_loads
    uuid_of_str.

Let signature_ok (request : Request) : result bool :=
  verify_signature hmac_sha256_hexdigest str_encode (body request)
    (signature_header request) (CREEM_WEBHOOK_SECRET settings).

Let event_of (request : Request) : result pyval :=
  parse_event bytes_decode json_loads (body request).

Let fields_of (request : Request) : result (response + CheckoutFields) :=
  read_fields settings hmac_sha256_hexdigest str_encode bytes_decode json_loads request.

Let checkout_of (request : Request) : result (response + Checkout) :=
  read_event settings hmac_sha256_hexdigest str_encode bytes_decode json_loads
    uuid_of_str request.

Lemma fields_invalid_signature (request : Request) :
  signature_ok request = Ok false ->
  fields_of request = Raise (HTTPException 400 "Invalid signature").
Proof.
  unfold signature_ok, fields_of, read_fields. intros Hsig. rewrite Hsig. reflexivity.
Qed.

Lemma fields_unverifiable (request : Request) (e : exn) :
  signature_ok request = Raise e -> e = TypeError /\ fields_of request = Raise TypeError.
Proof.
  unfold signature_ok, fields_of, read_fields. intros Hsig. rewrite Hsig. simpl.
  unfold verify_signature, compare_digest in Hsig.
  destruct (String.eqb _ _); [discriminate |].
  destruct (_ && _); [discriminate |]. injection Hsig as <-. split; reflexivity.
Qed.

Lemma fields_undecodable (request : Request) (e : exn) :
  signature_ok request = Ok true ->
  event_of request = Raise e ->
  fields_of request = Raise e.
Proof.
  unfold signature_ok, event_of, fields_of, read_fields. intros Hsig Hev.
  rewrite Hsig. simpl. rewrite Hev. reflexivity.
Qed.

Lemma handler_fields_raise (request : Request) (db : DB) (e : exn) :
  fields_of request = Raise e -> handler request db = (Raise e, db).
Proof.
  unfold fields_of, handler, creem_webhook, read_event. intros Hf. rewrite Hf. reflexivity.
Qed.

Lemma rbind_ok {A B} (c : result A) (k : A -> result B) (b : B) :
  rbind c k = Ok b -> exists a, c = Ok a /\ k a = Ok b.
Proof. destruct c as [a | e]; [intros H; exists a; split; [reflexivity | exact H] | discriminate]. Qed.

Lemma fields_metadata (request : Request) (f : CheckoutFields) :
  fields_of request = Ok (inr f) -> exists md, f_metadata f = PDict md.
Proof.
  unfold fields_of, read_fields. intros H. cbv zeta in H.
  repeat match type of H with
         | rbind _ _ = Ok _ =>
             let E := fresh "E" in
             apply rbind_ok in H; destruct H as (? & E & H); cbv beta zeta in H
         | (if ?x then _ else _) = Ok _ => destruct x; try discriminate H
         end.
  injection H as <-. simpl.
  match goal with
  | E : py_get ?m "user_id" = Ok _ |- _ =>
      destruct m; try discriminate E; eexists; reflexivity
  end.
Qed.

(** C7: a validly signed payload that decodes to an event whose type is
    not [checkout.completed] is answered [{"status": "ignored"}], and
    no store is written. *)
Theorem creem_webhook_ignores_other_events (request : Request) (db : DB)
    (event : pydict) :
  signature_ok request = Ok true ->
  event_of request = Ok (PDict event) ->
  eq_str (dict_get event "eventType") "checkout.completed" = false ->
  handler request db = (Ok [("status", "ignored")], db).
Proof.
  unfold signature_ok, event_of, handler, creem_webhook, read_event, read_fields.
  intros Hsig Hev Hty.
  rewrite Hsig. simpl. rewrite Hev. simpl. rewrite Hty. reflexivity.
Qed.

(** C8, as amended: the handler catches one exception, the
    [ValueError] of [UUID(user_id_raw)], and answers it with
    [{"status": "ignored", "reason": "invalid_user_id"}].  Every other
    exception leaves the handler as raised, and no store is written:
    the [TypeError] of a signature that cannot be compared, an
    exception of [parse_event] on a validly signed payload, any
    exception raised while the event is read, any other exception of
    [UUID(user_id_raw)], and any exception raised inside the session.
    A signature that does not verify is raised as
    [HTTPException(400)]. *)
Theorem creem_webhook_exceptions (request : Request) (db : DB) :
  (signature_ok request = Ok false ->
   handler request db = (Raise (HTTPException 400 "Invalid signature"), db)) /\
  (forall e,
      signature_ok request = Raise e ->
      e = TypeError /\ handler request db = (Raise TypeError, db)) /\
  (forall e,
      signature_ok request = Ok true ->
      event_of request = Raise e ->
      handler request db = (Raise e, db)) /\
  (forall e, fields_of request = Raise e -> handler request db = (Raise e, db)) /\
  (forall f,
      fields_of request = Ok (inr f) ->
      (UUID_of uuid_of_str (f_user_id_raw f) = Raise ValueError ->
       handler request db
       = (Ok [("status", "ignored"); ("reason", "invalid_user_id")], db)) /\
      (forall e,
          UUID_of uuid_of_str (f_user_id_raw f) = Raise e ->
          e <> ValueError ->
          handler request db = (Raise e, db)) /\
      (forall user_id,
          UUID_of uuid_of_str (f_user_id_raw f) = Ok user_id ->
          exists c,
            checkout_of request = Ok (inr c) /\
            c_user_id c = user_id /\
            handler request db = get_db_context (dispatch settings c) db)) /\
  (forall c e db',
      checkout_of request = Ok (inr c) ->
      dispatch settings c db = (Raise e, db') ->
      handler request db = (Raise e, db)).
Proof.
  split; [intros H; apply handler_fields_raise, fields_invalid_signature, H |].
  split.
  { intros e H. destruct (fields_unverifiable request e H) as [-> Hf].
    split; [reflexivity | apply handler_fields_raise, Hf]. }
  split; [intros e Hs He; apply handler_fields_raise, fields_undecodable; assumption |].
  split; [intros e; apply handler_fields_raise |].
  split.
  - intros f Hf. destruct (fields_metadata request f Hf) as [md Hmd].
    unfold checkout_of, handler, creem_webhook, read_event.
    unfold fields_of in Hf. rewrite Hf. simpl.
    split; [intros ->; reflexivity |].
    split.
    + intros e -> Hne. destruct e; try reflexivity. contradiction.
    + intros user_id ->. rewrite Hmd. eexists. split; [reflexivity |].
      split; reflexivity.
  - intros c e db' Hc Hd. unfold checkout_of in Hc.
    unfold handler, creem_webhook. rewrite Hc. unfold get_db_context. rewrite Hd.
    reflexivity.
Qed.

End WebhookProperties.

(** C7, witness: a signed [refund.created] event. *)
Lemma creem_webhook_ignores_other_events_witness :
  deliver "refund" recorded_db = (Ok [("status", "ignored")], recorded_db).
Proof.
  eapply (creem_webhook_ignores_other_events shop_settings toy_hmac toy_encode
            toy_decode toy_json toy_uuid (signed "refund") recorded_db);
    vm_compute; reflexivity.
Defined.

(** C8, counterexample: a signed payload that is not JSON.  The
    exception of the decoder leaves the handler; no response is made
    of it. *)
Lemma creem_webhook_propagates_decode_error :
  verify_signature toy_hmac toy_encode (body (signed "{not json"))
    (signature_header (signed "{not json")) (CREEM_WEBHOOK_SECRET shop_settings)
  = Ok true /\
  parse_event toy_decode toy_json (body (signed "{not json")) = Raise JSONDecodeError /\
  deliver "{not json" empty_db = (Raise JSONDecodeError, empty_db).
Proof. vm_compute. repeat split. Qed.

(** C8, witness: a wrong signature; a signature that is not ASCII; a
    payload that is not JSON; and three checkouts of the subscription
    product, with subscription, product and order: one of a user id
    that is not a UUID, one of a user id that is a number, and one
    whose plan name the database refuses. *)
Lemma creem_webhook_exceptions_witness :
  let handler := creem_webhook shop_settings toy_hmac toy_encode toy_decode toy_json'
                   toy_uuid in
  handler {| body := list_byte_of_string "stray"; creem_signature := Some "bad" |}
    recorded_db
  = (Raise (HTTPException 400 "Invalid signature"), recorded_db) /\
  handler {| body := list_byte_of_string "stray";
             creem_signature := Some latin1_signature |} recorded_db
  = (Raise TypeError, recorded_db) /\
  handler (signed "{not json") recorded_db = (Raise JSONDecodeError, recorded_db) /\
  handler (signed "stray") recorded_db
  = (Ok [("status", "ignored"); ("reason", "invalid_user_id")], recorded_db) /\
  handler (signed "numeric user") recorded_db = (Raise AttributeError, recorded_db) /\
  handler (signed "numeric plan") recorded_db = (Raise DBAPIError, recorded_db).
Proof.
  cbv zeta.
  pose proof (creem_webhook_exceptions shop_settings toy_hmac toy_encode toy_decode
                toy_json' toy_uuid) as thm.
  cbv beta in thm.
  split.
  { destruct (thm {| body := list_byte_of_string "stray"; creem_signature := Some "bad" |}
                recorded_db) as (H & _).
    apply H. vm_compute. reflexivity. }
  split.
  { destruct (thm {| body := list_byte_of_string "stray";
                     creem_signature := Some latin1_signature |} recorded_db)
      as (_ & H & _).
    apply (H TypeError). vm_compute. reflexivity. }
  split.
  { destruct (thm (signed "{not json") recorded_db) as (_ & _ & H & _).
    apply H; vm_compute; reflexivity. }
  split.
  { destruct (thm (signed "stray") recorded_db) as (_ & _ & _ & _ & H & _).
    edestruct H as (Hv & _); [vm_compute; reflexivity |].
    apply Hv. vm_compute. reflexivity. }
  split.
  { destruct (thm (signed "numeric user") recorded_db) as (_ & _ & _ & _ & H & _).
    edestruct H as (_ & He & _); [vm_compute; reflexivity |].
    apply He; [vm_compute; reflexivity | discriminate]. }
  destruct (thm (signed "numeric plan") recorded_db) as (_ & _ & _ & _ & _ & H).
  eapply H; vm_compute; reflexivity.
Defined.

(** C3, at the failing input: the subscription event [evt_1] is
    delivered and recorded; the user then spends 3 credits, and an
    upgrade [evt_3] is delivered.  Delivered again, [evt_1] is answered
    [ok]: the transaction guard holds ([evt_1] is still recorded once),
    but the monthly allowance spent is granted anew and the
    subscription row goes back to the plan of [evt_1].  Only a
    redelivery with nothing in between leaves the stores as they
    were. *)
Theorem creem_webhook_redelivery_regrants :
  let db1 := snd (deliver "subscription" empty_db) in
  let db2 := snd (commit_usage shop_settings 7%N None None None 2500 None None db1) in
  let db3 := snd (deliver "upgrade" db2) in
  fst (deliver "subscription" empty_db) = Ok [("status", "ok")] /\
  balances db1 7%N = (50, 0) /\
  balances db2 7%N = (47, 0) /\
  (exists row, payment_transactions db2 !! "evt_1" = Some row) /\
  fst (deliver "subscription" db2) = Ok [("status", "ok")] /\
  balances (snd (deliver "subscription" db2)) 7%N = (50, 0) /\
  payment_transactions (snd (deliver "subscription" db2)) = payment_transactions db2 /\
  map s_plan_name (subscriptions db3) = [Some "Max"] /\
  map s_plan_name (subscriptions (snd (deliver "subscription" db3))) = [Some "Pro"] /\
  deliver "subscription" db1 = (Ok [("status", "ok")], db1).
Proof.
  cbv zeta. vm_compute. repeat split. eexists. reflexivity.
Qed.

(** * Further properties *)

(** ** Token estimates and cost *)

Lemma Qceiling_div (n c : Z) :
  0 < c -> Qceiling (inject_Z n / inject_Z c)%Q = - ((- n) / c).
Proof.
  intros Hc.
  destruct c as [| p | p]; try lia.
  assert (E : (inject_Z n / inject_Z (Z.pos p) == n # p)%Q).
  { unfold Qdiv, Qinv, inject_Z, Qmult, Qeq. simpl. lia. }
  rewrite E. reflexivity.
Qed.

Lemma ceiling_div_bounds (n c : Z) :
  0 < c ->
  c * (Qceiling (inject_Z n / inject_Z c)%Q - 1) < n <= c * Qceiling (inject_Z n / inject_Z c)%Q.
Proof.
  intros Hc. rewrite (Qceiling_div n c Hc).
  pose proof (Z.div_mod (- n) c ltac:(lia)) as Hdiv.
  pose proof (Z.mod_pos_bound (- n) c Hc) as Hmod.
  nia.
Qed.

Lemma length_append (a b : string) :
  String.length (String.append a b) = (String.length a + String.length b)%nat.
Proof. induction a as [| ch a IH]; simpl; [reflexivity | rewrite IH; reflexivity]. Qed.

Lemma length_zero_empty (text : string) :
  String.eqb text "" = true <-> Z.of_nat (String.length text) <= 0.
Proof.
  destruct text; simpl; split; intros H; try reflexivity; try lia; discriminate.
Qed.

Section EstimateProperties.

Variable BILLING_CHARS_PER_TOKEN : Z.

(** X1: the estimate of an empty text is 0; for any other text it is
    at least 1 and it is the least number of tokens that holds all the
    characters, at [max(BILLING_CHARS_PER_TOKEN, 1)] characters a
    token. *)
Theorem estimate_tokens_from_text_bounds (text : string) :
  let chars_per_token := Z.max BILLING_CHARS_PER_TOKEN 1 in
  let chars := Z.of_nat (String.length text) in
  let tokens := estimate_tokens_from_text BILLING_CHARS_PER_TOKEN text in
  (text = "" -> tokens = 0) /\
  (text <> "" ->
   1 <= tokens /\
   chars_per_token * (tokens - 1) < chars <= chars_per_token * tokens).
Proof.
  cbv zeta. unfold estimate_tokens_from_text. split.
  - intros ->. reflexivity.
  - intros Hne.
    destruct (String.eqb_spec text "") as [E | _]; [contradiction |].
    assert (Hlen : 0 < Z.of_nat (String.length text)).
    { destruct text; [contradiction | simpl; lia]. }
    pose proof (ceiling_div_bounds (Z.of_nat (String.length text))
                  (Z.max BILLING_CHARS_PER_TOKEN 1) ltac:(lia)) as Hb.
    set (k := Qceiling _) in *. nia.
Qed.

(** X2: the prompt estimate looks at the total number of characters
    only: it is the estimate of the one text made of the contents of
    the history followed by the message. *)
Theorem estimate_prompt_tokens_as_text (history : list (list (string * string)))
    (user_message : string) :
  estimate_prompt_tokens BILLING_CHARS_PER_TOKEN history user_message
  = estimate_tokens_from_text BILLING_CHARS_PER_TOKEN
      (fold_right String.append user_message (map content_of history)).
Proof.
  unfold estimate_prompt_tokens, estimate_tokens_from_text.
  set (text := fold_right String.append user_message (map content_of history)).
  assert (Hlen : fold_right Z.add 0
                   (map (fun msg => Z.of_nat (String.length (content_of msg))) history)
                 + Z.of_nat (String.length user_message)
                 = Z.of_nat (String.length text)).
  { subst text. induction history as [| msg history IH]; simpl; [lia |].
    rewrite length_append. lia. }
  rewrite Hlen.
  destruct (String.eqb text "") eqn:E.
  - apply length_zero_empty in E.
    destruct (Z.leb_spec (Z.of_nat (String.length text)) 0); [reflexivity | lia].
  - destruct (Z.leb_spec (Z.of_nat (String.length text)) 0) as [H | H]; [| reflexivity].
    apply length_zero_empty in H. congruence.
Qed.

End EstimateProperties.

(** Rounding keeps the sign: from a mantissa that is not negative it
    gives a zero, a finite float or an infinity of the sign asked
    for, never a NaN. *)

Lemma shr_1_nonneg (mrs : shr_record) : 0 <= shr_m mrs -> 0 <= shr_m (shr_1 mrs).
Proof.
  destruct mrs as [m r s]. simpl.
  destruct m as [| p | p]; [simpl; lia | destruct p; simpl; lia | lia].
Qed.

Lemma iter_shr_1_nonneg (p : positive) (mrs : shr_record) :
  0 <= shr_m mrs -> 0 <= shr_m (SpecFloat.iter_pos shr_1 p mrs).
Proof.
  revert mrs. induction p as [p IH | p IH |]; intros mrs H; simpl.
  - apply IH, IH, shr_1_nonneg, H.
  - apply IH, IH, H.
  - apply shr_1_nonneg, H.
Qed.

Lemma shr_fexp_nonneg (m e : Z) (l : location) :
  0 <= m -> 0 <= shr_m (fst (shr_fexp 53 1024 m e l)).
Proof.
  intros H. unfold shr_fexp, shr.
  assert (H0 : 0 <= shr_m (shr_record_of_loc m l)).
  { destruct l as [| []]; exact H. }
  destruct (fexp 53 1024 (Zdigits2 m + e) - e); simpl; try exact H0.
  apply iter_shr_1_nonneg, H0.
Qed.

Lemma round_nearest_even_nonneg (m : Z) (l : location) :
  0 <= m -> 0 <= round_nearest_even m l.
Proof.
  intros H. destruct l as [| []]; simpl; try lia.
  destruct (Z.even m); lia.
Qed.

Lemma binary_round_aux_sign (sx : bool) (mx ex : Z) (lx : location) :
  0 <= mx ->
  match binary_round_aux 53 1024 sx mx ex lx with
  | S754_zero s | S754_infinity s | S754_finite s _ _ => s = sx
  | S754_nan => False
  end.
Proof.
  intros H. unfold binary_round_aux.
  pose proof (shr_fexp_nonneg mx ex lx H) as H1.
  destruct (shr_fexp 53 1024 mx ex lx) as [mrs' e']. simpl in H1.
  pose proof (shr_fexp_nonneg
                (round_nearest_even (shr_m mrs') (loc_of_shr_record mrs')) e' loc_Exact
                (round_nearest_even_nonneg _ _ H1)) as H2.
  destruct (shr_fexp 53 1024 _ e' loc_Exact) as [mrs'' e'']. simpl in H2.
  destruct (shr_m mrs'') as [| m | m]; [reflexivity | | lia].
  destruct (e'' <=? 1024 - 53); reflexivity.
Qed.

Lemma int_true_divide_not_negative (a b : positive) (quotient : pyfloat) :
  int_true_divide a b = Ok quotient -> not_negative quotient = true.
Proof.
  unfold int_true_divide, SFdiv.
  destruct (SFdiv_core_binary 53 1024 (Z.pos a) 0 (Z.pos b) 0) as [[mz ez] lz] eqn:E.
  assert (Hmz : 0 <= mz).
  { unfold SFdiv_core_binary in E.
    match type of E with
    | (let '(q, r) := Z.div_eucl ?m' _ in _) = _ =>
        assert (Hm' : 0 <= m') by (destruct (0 - 0 - _); [lia | apply Z.shiftl_nonneg; lia | lia]);
        pose proof (Z.div_pos m' (Z.pos b) Hm' ltac:(lia)) as Hq;
        unfold Z.div in Hq; destruct (Z.div_eucl m' (Z.pos b)) as [q r]
    end.
    injection E as <- _ _. exact Hq. }
  pose proof (binary_round_aux_sign (xorb false false) mz ez lz Hmz) as Hs.
  destruct (binary_round_aux 53 1024 (xorb false false) mz ez lz);
    try discriminate; try contradiction; intros [= <-]; simpl in *; subst; reflexivity.
Qed.

Lemma float_mul_not_negative (x y : pyfloat) :
  not_negative x = true -> not_negative y = true ->
  match float_mul x y with
  | S754_zero _ | S754_finite false _ _ | S754_infinity false => True
  | _ => False
  end.
Proof.
  unfold float_mul, SFmul.
  destruct x as [sx | sx | | [] mx ex]; try discriminate;
    destruct y as [sy | sy | | [] my ey]; try discriminate; intros _ _; try exact I.
  pose proof (binary_round_aux_sign (xorb false false) (Z.pos (mx * my)) (ex + ey)
                loc_Exact ltac:(lia)) as Hs.
  destruct (binary_round_aux 53 1024 (xorb false false) (Z.pos (mx * my)) (ex + ey) loc_Exact);
    simpl in *; subst; try exact I; contradiction.
Qed.

Lemma float_value_not_negative (x : pyfloat) :
  match x with
  | S754_zero _ | S754_finite false _ _ => True
  | _ => False
  end ->
  (0 <= float_value x)%Q.
Proof.
  destruct x as [s | s | | [] m e]; try contradiction; intros _; simpl;
    try apply Qle_refl.
  apply Qmult_le_0_compat.
  - replace 0%Q with (inject_Z 0) by reflexivity. rewrite <- Zle_Qle. lia.
  - apply Qpower_0_le. discriminate.
Qed.

Section CostProperties.

Variable settings : Settings.

(** X3: for a model whose multiplier is a zero or a positive finite
    float, [calculate_cost_credits] returns a cost that is not
    negative, or raises [OverflowError]: it never returns a negative
    cost and never raises [ValueError]. *)
Theorem calculate_cost_credits_never_negative (model_name : option string)
    (total_tokens : Z) :
  not_negative (get_model_multiplier settings model_name) = true ->
  (exists cost,
      calculate_cost_credits settings total_tokens model_name = Ok cost /\
      0 <= cost) \/
  calculate_cost_credits settings total_tokens model_name = Raise OverflowError.
Proof.
  intros Hm. unfold calculate_cost_credits.
  destruct (Z.leb_spec total_tokens 0); [left; exists 0; split; [reflexivity | lia] |].
  destruct (int_true_divide _ _) as [quotient | e] eqn:Eq; simpl.
  - pose proof (float_mul_not_negative quotient _
                  (int_true_divide_not_negative _ _ _ Eq) Hm) as Hp.
    destruct (float_mul quotient (get_model_multiplier settings model_name))
      as [s | [] | | [] m e] eqn:Ep; try contradiction; simpl.
    + left. exists 0. split; [reflexivity | lia].
    + right. reflexivity.
    + left. eexists. split; [reflexivity |].
      change 0 with (Qceiling 0). apply Qceiling_resp_le.
      apply (float_value_not_negative (S754_finite false m e)). exact I.
  - right. unfold int_true_divide in Eq.
    destruct (SFdiv _ _ _ _); try discriminate. injection Eq as <-. reflexivity.
Qed.

End CostProperties.

(** X1, witness: eleven characters at four characters a token. *)
Lemma estimate_tokens_from_text_bounds_witness :
  estimate_tokens_from_text 4 "" = 0 /\
  1 <= estimate_tokens_from_text 4 "hello world" /\
  4 * (estimate_tokens_from_text 4 "hello world" - 1) < 11
    <= 4 * estimate_tokens_from_text 4 "hello world".
Proof.
  split.
  - apply (proj1 (estimate_tokens_from_text_bounds 4 "")). reflexivity.
  - apply (proj2 (estimate_tokens_from_text_bounds 4 "hello world")). discriminate.
Defined.

(** X3, witness: the model charged thirty times, 8300 tokens. *)
Lemma calculate_cost_credits_never_negative_witness :
  (exists cost,
      calculate_cost_credits free_model_settings 8300 (Some "large-model") = Ok cost /\
      0 <= cost) \/
  calculate_cost_credits free_model_settings 8300 (Some "large-model")
  = Raise OverflowError.
Proof.
  apply (calculate_cost_credits_never_negative free_model_settings (Some "large-model") 8300).
  vm_compute. reflexivity.
Defined.

(** ** Wallets, usage and the ledger *)

Lemma with_wallet_twice (user_id : UUID) (db : DB) :
  with_wallet user_id (with_wallet user_id db) = with_wallet user_id db.
Proof.
  destruct (credit_wallets db !! user_id) as [b |] eqn:E.
  - rewrite (with_wallet_existing user_id db b E).
    apply (with_wallet_existing user_id db b E).
  - assert (H : with_wallet user_id db
                 = {| credit_wallets := <[user_id := (0, 0)]> (credit_wallets db);
                      subscriptions := subscriptions db;
                      token_ledgers := token_ledgers db;
                      payment_transactions := payment_transactions db |})
      by (unfold with_wallet; rewrite E; reflexivity).
    rewrite H. unfold with_wallet. simpl. rewrite lookup_insert_eq. reflexivity.
Qed.

(** X4: [get_wallet] never raises and creates at most one row: a
    second call returns the same wallet and leaves the state of the
    first; the balances of every user are those before the calls. *)
Theorem get_wallet_idempotent (user_id : UUID) (db : DB) :
  exists wallet,
    fst (get_wallet user_id db) = Ok wallet /\
    w_user_id wallet = user_id /\
    (monthly_remaining wallet, prepaid_balance wallet) = balances db user_id /\
    get_wallet user_id (snd (get_wallet user_id db))
    = (Ok wallet, snd (get_wallet user_id db)) /\
    (forall other, balances (snd (get_wallet user_id db)) other = balances db other).
Proof.
  rewrite get_wallet_run. simpl. eexists. split; [reflexivity |]. simpl.
  split; [reflexivity |].
  split; [destruct (balances db user_id); reflexivity |].
  split.
  - rewrite get_wallet_run, with_wallet_twice, balances_with_wallet. reflexivity.
  - intros other. apply balances_with_wallet.
Qed.

Section UsageProperties.

Variable settings : Settings.

Lemma commit_usage_run (db : DB) (user_id : UUID) (model_name : option string)
    (prompt_tokens completion_tokens : option Z) (total_tokens : Z)
    (provider_request_id : option string) (metadata : option pydict) (cost : Z) :
  calculate_cost_credits settings total_tokens model_name = Ok cost ->
  let monthly := fst (balances db user_id) in
  let prepaid := snd (balances db user_id) in
  let monthly_deducted := Z.min monthly cost in
  let prepaid_deducted := Z.min prepaid (cost - monthly_deducted) in
  let entry := {| l_user_id := user_id; l_model_name := model_name;
                  l_prompt_tokens := prompt_tokens;
                  l_completion_tokens := completion_tokens;
                  l_total_tokens := total_tokens; cost_credits := cost;
                  overage_credits := cost - monthly_deducted - prepaid_deducted;
                  l_provider_request_id := provider_request_id;
                  l_metadata := metadata |} in
  commit_usage settings user_id model_name prompt_tokens completion_tokens
    total_tokens provider_request_id metadata db
  = (Ok entry,
     {| credit_wallets :=
          <[user_id := (monthly - monthly_deducted, prepaid - prepaid_deducted)]>
            (credit_wallets (with_wallet user_id db));
        subscriptions := subscriptions db;
        token_ledgers := entry :: token_ledgers db;
        payment_transactions := payment_transactions db |}).
Proof.
  intros Hcost. cbv zeta. unfold commit_usage, sbind, lift.
  rewrite get_wallet_run, Hcost. simpl.
  destruct (with_wallet_other_tables user_id db) as (Hs & Hl & Ht).
  rewrite Hs, Hl, Ht. reflexivity.
Qed.

Lemma balances_insert_other (db : DB) (user_id other : UUID) (b : Z * Z) subs led txs :
  other <> user_id ->
  balances {| credit_wallets := <[user_id := b]> (credit_wallets (with_wallet user_id db));
              subscriptions := subs; token_ledgers := led;
              payment_transactions := txs |} other = balances db other.
Proof.
  intros Hne. unfold balances at 1. simpl.
  rewrite lookup_insert_ne by congruence.
  apply (balances_with_wallet user_id other db).
Qed.

(** X5: for a usage whose cost is computed, [commit_usage] returns; it
    appends exactly one ledger entry, which records the usage as given
    with that cost, and touches nothing but the wallet of the user: the
    balances of the other users, the subscriptions and the
    transactions are what they were. *)
Theorem commit_usage_frame (db : DB) (user_id : UUID) (model_name : option string)
    (prompt_tokens completion_tokens : option Z) (total_tokens : Z)
    (provider_request_id : option string) (metadata : option pydict) (cost : Z) :
  calculate_cost_credits settings total_tokens model_name = Ok cost ->
  let run := commit_usage settings user_id model_name prompt_tokens completion_tokens
               total_tokens provider_request_id metadata db in
  exists entry,
    fst run = Ok entry /\
    token_ledgers (snd run) = entry :: token_ledgers db /\
    l_user_id entry = user_id /\
    l_model_name entry = model_name /\
    l_prompt_tokens entry = prompt_tokens /\
    l_completion_tokens entry = completion_tokens /\
    l_total_tokens entry = total_tokens /\
    cost_credits entry = cost /\
    l_provider_request_id entry = provider_request_id /\
    l_metadata entry = metadata /\
    subscriptions (snd run) = subscriptions db /\
    payment_transactions (snd run) = payment_transactions db /\
    (forall other, other <> user_id -> balances (snd run) other = balances db other).
Proof.
  intros Hcost. cbv zeta.
  pose proof (commit_usage_run db user_id model_name prompt_tokens completion_tokens
                total_tokens provider_request_id metadata cost Hcost) as H.
  cbv zeta in H. rewrite H. simpl. eexists. split; [reflexivity |].
  repeat split. intros other Hne. apply balances_insert_other. exact Hne.
Qed.

(** X6: when [precheck] admits an estimate, committing that very usage
    leaves no overage, and the credits of the user go down by exactly
    the cost [precheck] returned. *)
Theorem precheck_then_commit (db : DB) (user_id : UUID) (model_name : option string)
    (prompt_tokens completion_tokens : option Z) (total_tokens : Z)
    (provider_request_id : option string) (metadata : option pydict) (cost : Z) :
  0 <= fst (balances db user_id) -> 0 <= snd (balances db user_id) ->
  fst (precheck settings user_id model_name total_tokens db) = Ok cost ->
  exists entry db',
    commit_usage settings user_id model_name prompt_tokens completion_tokens
      total_tokens provider_request_id metadata
      (snd (precheck settings user_id model_name total_tokens db)) = (Ok entry, db') /\
    cost_credits entry = cost /\
    overage_credits entry = 0 /\
    0 <= fst (balances db' user_id) /\
    0 <= snd (balances db' user_id) /\
    fst (balances db' user_id) + snd (balances db' user_id)
    = fst (balances db user_id) + snd (balances db user_id) - cost.
Proof.
  intros Hm Hp. rewrite precheck_run. simpl.
  destruct (calculate_cost_credits settings total_tokens model_name) as [c | e] eqn:Hcost;
    [| discriminate].
  destruct (Z.ltb_spec (fst (balances db user_id) + snd (balances db user_id)) c)
    as [H | H]; [discriminate |].
  intros [= <-].
  pose proof (commit_usage_run (with_wallet user_id db) user_id model_name prompt_tokens
                completion_tokens total_tokens provider_request_id metadata c Hcost)
    as Hrun.
  cbv zeta in Hrun. rewrite Hrun. clear Hrun.
  rewrite !balances_with_wallet.
  eexists. eexists. split; [reflexivity |].
  rewrite balances_insert. simpl. repeat split; lia.
Qed.

(** X7: when [precheck] refuses an estimate, committing that usage
    still goes through: both balances are drained to 0 and the
    shortfall, [required_credits - available_credits], is recorded as
    overage. *)
Theorem commit_after_refusal (db : DB) (user_id : UUID) (model_name : option string)
    (prompt_tokens completion_tokens : option Z) (total_tokens : Z)
    (provider_request_id : option string) (metadata : option pydict)
    (required available : Z) :
  0 <= fst (balances db user_id) -> 0 <= snd (balances db user_id) ->
  fst (precheck settings user_id model_name total_tokens db)
  = Raise (PaymentRequiredError required available) ->
  exists entry db',
    commit_usage settings user_id model_name prompt_tokens completion_tokens
      total_tokens provider_request_id metadata db = (Ok entry, db') /\
    balances db' user_id = (0, 0) /\
    cost_credits entry = required /\
    overage_credits entry = required - available /\
    0 < overage_credits entry.
Proof.
  intros Hm Hp. rewrite precheck_run. simpl.
  destruct (calculate_cost_credits settings total_tokens model_name) as [c | e] eqn:Hcost;
    [| intros [= ->]].
  2: { destruct (calculate_cost_credits_raises settings _ _ _ Hcost); discriminate. }
  destruct (Z.ltb_spec (fst (balances db user_id) + snd (balances db user_id)) c)
    as [H | H]; [| discriminate].
  intros [= <- <-].
  pose proof (commit_usage_run db user_id model_name prompt_tokens
                completion_tokens total_tokens provider_request_id metadata c Hcost)
    as Hrun.
  cbv zeta in Hrun. rewrite Hrun. clear Hrun.
  eexists. eexists. split; [reflexivity |].
  rewrite balances_insert. simpl.
  split; [f_equal; lia |]. repeat split; lia.
Qed.

(** X25: an exception of the cost computation leaves [precheck] and
    [commit_usage] as raised.  Nothing is deducted and no ledger entry
    is written; the wallet row that [get_wallet] creates for a user
    without one is all that the session holds more. *)
Theorem cost_failure_propagates (db : DB) (user_id : UUID) (model_name : option string)
    (prompt_tokens completion_tokens : option Z) (total_tokens : Z)
    (provider_request_id : option string) (metadata : option pydict) (e : exn) :
  calculate_cost_credits settings total_tokens model_name = Raise e ->
  (e = OverflowError \/ e = ValueError) /\
  precheck settings user_id model_name total_tokens db = (Raise e, with_wallet user_id db) /\
  commit_usage settings user_id model_name prompt_tokens completion_tokens
    total_tokens provider_request_id metadata db = (Raise e, with_wallet user_id db) /\
  (forall other, balances (with_wallet user_id db) other = balances db other) /\
  token_ledgers (with_wallet user_id db) = token_ledgers db.
Proof.
  intros Hcost.
  split; [apply (calculate_cost_credits_raises settings _ _ _ Hcost) |].
  split; [rewrite precheck_run, Hcost; reflexivity |].
  split.
  - unfold commit_usage, sbind, lift. rewrite get_wallet_run, Hcost. reflexivity.
  - split; [intros other; apply balances_with_wallet | apply with_wallet_other_tables].
Qed.

End UsageProperties.

(** X5, witness: 2500 tokens committed for user 1 while user 2 holds
    credits. *)
Lemma commit_usage_frame_witness :
  let db := with_wallet 1%N (wallet_db 2%N 50 7) in
  let run := commit_usage default_settings 1%N None None None 2500 None None db in
  exists entry,
    fst run = Ok entry /\
    token_ledgers (snd run) = [entry] /\
    cost_credits entry = 3 /\
    balances (snd run) 2%N = (50, 7).
Proof.
  cbv zeta.
  destruct (commit_usage_frame default_settings (with_wallet 1%N (wallet_db 2%N 50 7))
              1%N None None None 2500 None None 3 ltac:(vm_compute; reflexivity))
    as (entry & Hrun & Hled & _ & _ & _ & _ & _ & Hcost & _ & _ & _ & _ & Hbal).
  exists entry. split; [exact Hrun |]. split; [exact Hled |]. split; [exact Hcost |].
  rewrite Hbal by discriminate. vm_compute. reflexivity.
Defined.

(** X25, witness: an infinite multiplier; the float product is
    infinite and [math.ceil] raises [OverflowError]. *)
Lemma cost_failure_propagates_witness :
  precheck unbounded_settings 1%N None 2500 (wallet_db 1%N 50 0)
  = (Raise OverflowError, wallet_db 1%N 50 0) /\
  commit_usage unbounded_settings 1%N None None None 2500 None None (wallet_db 1%N 50 0)
  = (Raise OverflowError, wallet_db 1%N 50 0) /\
  calculate_cost_credits unbounded_settings 2500 (Some "unknown-model") = Raise ValueError.
Proof.
  destruct (cost_failure_propagates unbounded_settings (wallet_db 1%N 50 0) 1%N None
              None None 2500 None None OverflowError ltac:(vm_compute; reflexivity))
    as (_ & Hpre & Hcommit & _).
  split; [rewrite Hpre; vm_compute; reflexivity |].
  split; [rewrite Hcommit; vm_compute; reflexivity |].
  vm_compute. reflexivity.
Defined.

(** X6, witness: 50 monthly credits, an estimate of 2500 tokens. *)
Lemma precheck_then_commit_witness :
  exists entry db',
    commit_usage default_settings 1%N None None None 2500 None None
      (snd (precheck default_settings 1%N None 2500 (wallet_db 1%N 50 0)))
    = (Ok entry, db') /\
    overage_credits entry = 0 /\
    balances db' 1%N = (47, 0).
Proof.
  destruct (precheck_then_commit default_settings (wallet_db 1%N 50 0) 1%N None
              None None 2500 None None 3
              ltac:(vm_compute; discriminate) ltac:(vm_compute; discriminate) eq_refl)
    as (entry & db' & Hrun & _ & Hover & _).
  exists entry, db'. split; [exact Hrun |]. split; [exact Hover |].
  vm_compute in Hrun. injection Hrun as _ <-. vm_compute. reflexivity.
Defined.

(** X7, witness: 3 credits available, 5 required. *)
Lemma commit_after_refusal_witness :
  exists entry db',
    commit_usage default_settings 1%N None None None 5000 None None (wallet_db 1%N 2 1)
    = (Ok entry, db') /\
    balances db' 1%N = (0, 0) /\
    overage_credits entry = 2.
Proof.
  destruct (commit_after_refusal default_settings (wallet_db 1%N 2 1) 1%N None
              None None 5000 None None 5 3
              ltac:(vm_compute; discriminate) ltac:(vm_compute; discriminate) eq_refl)
    as (entry & db' & Hrun & Hbal & _ & Hover & _).
  exists entry, db'. split; [exact Hrun |]. split; [exact Hbal |]. exact Hover.
Defined.

(** ** Subscriptions *)

Lemma latest_of_user (user_id : UUID) (rows : list Subscription) (row : Subscription) :
  latest_of user_id rows = Some row -> s_user_id row = user_id.
Proof.
  induction rows as [| r rows IH]; simpl; [discriminate |].
  destruct (N.eqb_spec (s_user_id r) user_id) as [E | _].
  - intros [= <-]. exact E.
  - exact IH.
Qed.

Lemma latest_of_replace (user_id : UUID) (new old : Subscription)
    (rows : list Subscription) :
  s_user_id new = user_id ->
  latest_of user_id rows = Some old ->
  latest_of user_id (replace_latest user_id new rows) = Some new.
Proof.
  intros Hnew. induction rows as [| r rows IH]; simpl; [discriminate |].
  destruct (N.eqb_spec (s_user_id r) user_id) as [E | E]; simpl.
  - intros _. rewrite Hnew, N.eqb_refl. reflexivity.
  - intros H. destruct (N.eqb_spec (s_user_id r) user_id); [contradiction | auto].
Qed.

Lemma latest_of_replace_other (user_id other : UUID) (new : Subscription)
    (rows : list Subscription) :
  s_user_id new = user_id -> other <> user_id ->
  latest_of other (replace_latest user_id new rows) = latest_of other rows.
Proof.
  intros Hnew Hne. induction rows as [| r rows IH]; simpl; [reflexivity |].
  destruct (N.eqb_spec (s_user_id r) user_id) as [E | E]; simpl.
  - rewrite Hnew.
    destruct (N.eqb_spec user_id other); [congruence |].
    destruct (N.eqb_spec (s_user_id r) other); [congruence | reflexivity].
  - rewrite IH. reflexivity.
Qed.

Lemma length_replace_latest (user_id : UUID) (new : Subscription)
    (rows : list Subscription) :
  length (replace_latest user_id new rows) = length rows.
Proof.
  induction rows as [| r rows IH]; simpl; [reflexivity |].
  destruct (N.eqb (s_user_id r) user_id); simpl; congruence.
Qed.

Section SubscriptionProperties.

Variable settings : Settings.

(** X8: after [grant_monthly_allowance], [get_subscription] gives the
    row that was returned, which carries the arguments of the grant;
    the latest rows of the other users are untouched.  A user who had
    a subscription gets no new row: the latest one is overwritten. *)
Theorem grant_monthly_allowance_upserts (db : DB) (user_id : UUID)
    (provider : string) (provider_subscription_id : option string) (status : string)
    (plan_name : option string) (current_period_start current_period_end : option datetime)
    (metadata : option pydict) :
  let run := grant_monthly_allowance settings user_id provider
               (of_option provider_subscription_id) status (of_option plan_name)
               current_period_start current_period_end metadata db in
  let subscription := {|
    s_user_id := user_id; s_provider := provider;
    s_provider_subscription_id := provider_subscription_id; s_status := status;
    s_plan_name := plan_name; s_monthly_credits := BILLING_MONTHLY_CREDITS settings;
    s_current_period_start := current_period_start;
    s_current_period_end := current_period_end; s_metadata := metadata |} in
  fst run = Ok subscription /\
  get_subscription user_id (snd run) = (Ok (Some subscription), snd run) /\
  (forall other, other <> user_id ->
     fst (get_subscription other (snd run)) = fst (get_subscription other db)) /\
  length (subscriptions (snd run))
  = match fst (get_subscription user_id db) with
    | Ok (Some _) => length (subscriptions db)
    | _ => S (length (subscriptions db))
    end.
Proof.
  cbv zeta. unfold grant_monthly_allowance, sbind. rewrite get_wallet_run. simpl.
  unfold upsert_subscription, sbind, get_latest_subscription, lift,
    get_subscription, get_latest_subscription. simpl.
  destruct (with_wallet_other_tables user_id db) as (Hs & _ & _). rewrite Hs.
  destruct provider_subscription_id, plan_name; simpl;
    destruct (latest_of user_id (subscriptions db)) as [old |] eqn:E; simpl;
    rewrite ?Hs, ?(latest_of_user _ _ _ E);
    (split; [reflexivity |]);
    (split; [f_equal; f_equal;
             first [ eapply latest_of_replace; [reflexivity | exact E]
                   | rewrite N.eqb_refl; reflexivity ] |]);
    (split; [intros other Hne; f_equal;
             first [ apply latest_of_replace_other; [reflexivity | exact Hne]
                   | destruct (N.eqb_spec user_id other); [congruence | reflexivity] ]
            | first [ apply length_replace_latest | reflexivity ] ]).
Qed.

(** X9: [record_subscription_payment] never touches the wallets, the
    subscriptions or the ledger, whatever it is given and whether it
    returns or raises: it grants nothing. *)
Theorem record_subscription_payment_leaves_balances (db : DB) (user_id : UUID)
    (provider : string) (external_id : pyval) (amount : option Q) (currency : pyval)
    (metadata : option pydict) :
  let run := record_subscription_payment settings user_id provider external_id amount
               currency metadata db in
  credit_wallets (snd run) = credit_wallets db /\
  subscriptions (snd run) = subscriptions db /\
  token_ledgers (snd run) = token_ledgers db.
Proof.
  cbv zeta.
  unfold record_subscription_payment, sbind, get_transaction_by_external_id, lift,
    create_transaction, sbind, lift.
  destruct external_id; simpl; try (repeat split; fail);
    try (destruct currency; simpl; repeat split; fail).
  destruct (payment_transactions db !! s) eqn:E; simpl; [repeat split |].
  destruct currency; simpl; rewrite ?E; simpl; repeat split.
Qed.

(** X10: for an [external_id] not recorded yet,
    [record_subscription_payment] records one [subscription]
    transaction for the user, granting [BILLING_MONTHLY_CREDITS], under
    that id, and leaves the transactions under the other ids alone. *)
Theorem record_subscription_payment_records (db : DB) (user_id : UUID)
    (provider external_id : string) (amount : option Q) (currency : option string)
    (metadata : option pydict) :
  payment_transactions db !! external_id = None ->
  let run := record_subscription_payment settings user_id provider (PStr external_id)
               amount (of_option currency) metadata db in
  fst run = Ok tt /\
  get_transaction_by_external_id (PStr external_id) (snd run)
  = (Ok (Some {| t_user_id := user_id; t_provider := provider;
                 t_external_id := external_id; t_kind := "subscription";
                 t_status := "completed"; t_amount := amount;
                 t_currency := currency;
                 t_credits_granted := BILLING_MONTHLY_CREDITS settings;
                 t_metadata := metadata |}), snd run) /\
  (forall other, other <> external_id ->
     payment_transactions (snd run) !! other = payment_transactions db !! other).
Proof.
  intros E. cbv zeta.
  unfold record_subscription_payment, sbind, get_transaction_by_external_id, lift,
    create_transaction, sbind, lift. simpl. rewrite E.
  destruct currency; simpl; rewrite E; simpl; rewrite lookup_insert_eq;
    (split; [reflexivity |]); (split; [reflexivity |]);
    intros other Hne; apply lookup_insert_ne; congruence.
Qed.

End SubscriptionProperties.

(** X10, witness: the payment [evt_9] of user 1 against [recorded_db]. *)
Lemma record_subscription_payment_records_witness :
  fst (record_subscription_payment default_settings 1%N "creem" (PStr "evt_9")
         (Some (99 # 10)) (PStr "USD") None recorded_db) = Ok tt /\
  payment_transactions
    (snd (record_subscription_payment default_settings 1%N "creem" (PStr "evt_9")
            (Some (99 # 10)) (PStr "USD") None recorded_db)) !! "evt_1"
  = payment_transactions recorded_db !! "evt_1".
Proof.
  pose proof (record_subscription_payment_records default_settings recorded_db 1%N
                "creem" "evt_9" (Some (99 # 10)) (Some "USD") None eq_refl) as H.
  cbv zeta in H. destruct H as (Hok & _ & Hother).
  split; [exact Hok |]. apply Hother. discriminate.
Defined.

(** ** Pack purchases *)

(** X11: [apply_pack_purchase] never changes a monthly allowance, the
    balances of another user, the subscriptions or the ledger; once it
    has returned, a transaction is recorded under the [external_id],
    and it is the [credit_pack] row of this purchase when the id was
    not recorded before. *)
Theorem apply_pack_purchase_frame (db : DB) (user_id : UUID) (provider : string)
    (external_id : string) (credits : Z) (amount : option Q) (currency : option string)
    (metadata : option pydict) :
  let run := apply_pack_purchase user_id provider (PStr external_id) credits amount
               (of_option currency) metadata db in
  fst (balances (snd run) user_id) = fst (balances db user_id) /\
  (forall other, other <> user_id -> balances (snd run) other = balances db other) /\
  subscriptions (snd run) = subscriptions db /\
  token_ledgers (snd run) = token_ledgers db /\
  payment_transactions (snd run) !! external_id
  = Some match payment_transactions db !! external_id with
         | Some row => row
         | None => {| t_user_id := user_id; t_provider := provider;
                      t_external_id := external_id; t_kind := "credit_pack";
                      t_status := "completed"; t_amount := amount;
                      t_currency := currency; t_credits_granted := credits;
                      t_metadata := metadata |}
         end /\
  (forall other, other <> external_id ->
     payment_transactions (snd run) !! other = payment_transactions db !! other).
Proof.
  cbv zeta.
  destruct (payment_transactions db !! external_id) as [row |] eqn:E.
  - rewrite (apply_pack_purchase_recorded _ _ _ _ _ _ _ _ _ E). simpl.
    repeat split; auto.
  - rewrite (apply_pack_purchase_fresh _ _ _ _ _ _ _ _ E). simpl.
    split; [rewrite balances_insert; reflexivity |].
    split; [intros other Hne; apply balances_insert_other; exact Hne |].
    split; [reflexivity |]. split; [reflexivity |].
    split; [apply lookup_insert_eq |].
    intros other Hne. apply lookup_insert_ne. congruence.
Qed.

(** ** Reading the ledger *)


(** X13: for a usage whose cost is computed, the entry [commit_usage]
    returns is the first one [list_ledger] gives for that user
    afterwards, for any limit of at least 1. *)
Theorem list_ledger_after_commit (settings : Settings) (db : DB) (user_id : UUID)
    (model_name : option string) (prompt_tokens completion_tokens : option Z)
    (total_tokens : Z) (provider_request_id : option string)
    (metadata : option pydict) (limit cost : Z) :
  1 <= limit ->
  calculate_cost_credits settings total_tokens model_name = Ok cost ->
  exists entry entries,
    fst (commit_usage settings user_id model_name prompt_tokens completion_tokens
           total_tokens provider_request_id metadata db) = Ok entry /\
    fst (list_ledger user_id limit
           (snd (commit_usage settings user_id model_name prompt_tokens
                   completion_tokens total_tokens provider_request_id metadata db)))
    = Ok (entry :: entries).
Proof.
  intros Hl Hcost.
  pose proof (commit_usage_run settings db user_id model_name prompt_tokens
                completion_tokens total_tokens provider_request_id metadata cost Hcost) as H.
  cbv zeta in H. rewrite H. simpl.
  unfold list_ledger, list_ledger_entries. simpl.
  destruct (Z.ltb_spec limit 0); [lia |].
  eexists.
  exists (take (pred (Z.to_nat limit))
            (filter (fun entry => N.eqb (l_user_id entry) user_id = true)
                    (token_ledgers db))).
  split; [reflexivity |]. simpl.
  rewrite filter_cons_True by (simpl; apply N.eqb_refl).
  destruct (Z.to_nat limit) as [| n] eqn:En; [lia |].
  simpl. reflexivity.
Qed.


(** X13, witness: one commit, then the twenty latest entries. *)
Lemma list_ledger_after_commit_witness :
  exists entry entries,
    fst (commit_usage default_settings 1%N None None None 2500 None None
           (wallet_db 1%N 50 0)) = Ok entry /\
    fst (list_ledger 1%N 20
           (snd (commit_usage default_settings 1%N None None None 2500 None None
                   (wallet_db 1%N 50 0)))) = Ok (entry :: entries).
Proof.
  apply (list_ledger_after_commit default_settings (wallet_db 1%N 50 0) 1%N None
           None None 2500 None None 20 3); [lia | vm_compute; reflexivity].
Defined.

(** ** The webhook, further *)

Lemma record_subscription_payment_wallets (settings : Settings) (db : DB)
    (user_id : UUID) (provider : string) (external_id : pyval) (amount : option Q)
    (currency : pyval) (metadata : option pydict) :
  credit_wallets (snd (record_subscription_payment settings user_id provider
                         external_id amount currency metadata db))
  = credit_wallets db.
Proof.
  unfold record_subscription_payment, sbind, get_transaction_by_external_id, lift,
    create_transaction, sbind, lift.
  destruct external_id; simpl; try reflexivity;
    try (destruct currency; simpl; reflexivity).
  destruct (payment_transactions db !! s) eqn:E; simpl; [reflexivity |].
  destruct currency; simpl; rewrite ?E; reflexivity.
Qed.

Lemma apply_pack_purchase_again (db db' : DB) (user_id : UUID) (provider : string)
    (external_id : pyval) (credits : Z) (amount : option Q) (currency : pyval)
    (metadata : option pydict) :
  apply_pack_purchase user_id provider external_id credits amount currency metadata db
  = (Ok tt, db') ->
  apply_pack_purchase user_id provider external_id credits amount currency metadata db'
  = (Ok tt, db').
Proof.
  destruct external_id as [| | | | e | |];
    try (unfold apply_pack_purchase, sbind, get_transaction_by_external_id, lift;
         simpl; discriminate).
  - unfold apply_pack_purchase, sbind, get_transaction_by_external_id, lift,
      create_transaction, sbind, lift. simpl. rewrite get_wallet_run. simpl.
    destruct currency; simpl; discriminate.
  - destruct (payment_transactions db !! e) as [row |] eqn:E.
    + rewrite (apply_pack_purchase_recorded _ _ _ _ _ _ _ _ _ E).
      intros [= <-]. apply (apply_pack_purchase_recorded _ _ _ _ _ _ _ _ _ E).
    + destruct currency as [| | | | cur | |];
        try (unfold apply_pack_purchase, sbind, get_transaction_by_external_id, lift,
               create_transaction, sbind, lift; simpl; rewrite E, get_wallet_run;
             simpl; discriminate).
      * change PNone with (of_option None).
        rewrite (apply_pack_purchase_fresh db user_id provider e credits amount None
                   metadata E).
        intros [= <-]. eapply apply_pack_purchase_recorded. simpl.
        apply lookup_insert_eq.
      * change (PStr cur) with (of_option (Some cur)).
        rewrite (apply_pack_purchase_fresh db user_id provider e credits amount
                   (Some cur) metadata E).
        intros [= <-]. eapply apply_pack_purchase_recorded. simpl.
        apply lookup_insert_eq.
Qed.

Section WebhookFurther.

Variable settings : Settings.
Variable hmac_sha256_hexdigest : list Byte.byte -> list Byte.byte -> string.
Variable str_encode : string -> list Byte.byte.
Variable bytes_decode : list Byte.byte -> option string.
Variable json_loads : string -> option pyval.
Variable uuid_of_str : string -> option UUID.

(** X14: [verify_signature] accepts a signature only if a secret is
    configured and the signature is the digest of the payload under
    that secret, and it accepts every such signature. *)
Theorem verify_signature_accepts_iff (payload : list Byte.byte)
    (signature secret : string) :
  verify_signature hmac_sha256_hexdigest str_encode payload signature secret = Ok true
  <-> (secret <> "" /\
       signature = hmac_sha256_hexdigest (str_encode secret) payload /\
       is_ascii signature = true).
Proof.
  unfold verify_signature, compare_digest.
  destruct (String.eqb_spec secret "") as [E | E].
  - split; [discriminate | intros [H _]; contradiction].
  - destruct (is_ascii (hmac_sha256_hexdigest (str_encode secret) payload)) eqn:Ha;
      destruct (is_ascii signature) eqn:Hs; simpl;
      destruct (String.eqb_spec (hmac_sha256_hexdigest (str_encode secret) payload)
                  signature) as [Eq | Ne];
      split; try discriminate; try (intros _; auto; fail);
      try (intros (_ & H & H'); try discriminate; subst; congruence).
Qed.

(** X15: as long as no webhook secret is configured (the default), the
    handler refuses every delivery, whatever its signature, with
    [HTTPException(400)], and writes nothing. *)
Theorem creem_webhook_without_secret (request : Request) (db : DB) :
  CREEM_WEBHOOK_SECRET settings = "" ->
  creem_webhook settings hmac_sha256_hexdigest str_encode bytes_decode json_loads
    uuid_of_str request db
  = (Raise (HTTPException 400 "Invalid signature"), db).
Proof.
  intros E. unfold creem_webhook, read_event, read_fields, verify_signature. rewrite E. reflexivity.
Qed.

(** X16: when [_resolve_pack_credits] finds credits, the product id is
    a string that is not empty, and a configured pack has that product
    id and those credits. *)
Theorem resolve_pack_credits_sound (product_id : pyval) (credits : Z) :
  _resolve_pack_credits settings product_id = Some credits ->
  exists id pack,
    product_id = PStr id /\ id <> "" /\
    In pack (BILLING_CREDIT_PACKS settings) /\
    pack_provider_product_id pack = id /\
    pack_credits pack = credits.
Proof.
  unfold _resolve_pack_credits.
  destruct (truthy product_id) eqn:Ht; simpl; [| discriminate].
  destruct (find _ _) as [pack |] eqn:Ef; [| discriminate].
  intros [= <-]. apply find_some in Ef as [Hin Heq].
  destruct product_id as [| | | | id | |]; simpl in Heq; try discriminate.
  exists id, pack. split; [reflexivity |].
  split; [intros ->; discriminate |].
  split; [exact Hin |].
  split; [symmetry; apply String.eqb_eq; exact Heq | reflexivity].
Qed.

(** X17: while the product ids of the packs are left empty (the
    default), no product id resolves to a pack. *)
Theorem resolve_pack_credits_unconfigured (product_id : pyval) :
  (forall pack, In pack (BILLING_CREDIT_PACKS settings) ->
                pack_provider_product_id pack = "") ->
  _resolve_pack_credits settings product_id = None.
Proof.
  intros Hall. unfold _resolve_pack_credits.
  destruct (truthy product_id) eqn:Ht; simpl; [| reflexivity].
  destruct (find _ _) as [pack |] eqn:Ef; [| reflexivity].
  apply find_some in Ef as [Hin Heq]. rewrite (Hall pack Hin) in Heq.
  destruct product_id; simpl in *; try discriminate.
  rewrite Heq in Ht. discriminate.
Qed.

Lemma dispatch_ok (c : Checkout) (db db' : DB) (r : response) :
  dispatch settings c db = (Ok r, db') ->
  r = [("status", "ok")] \/ db' = db.
Proof.
  unfold dispatch, sbind, sret, lift.
  repeat match goal with
         | |- context [match ?x with _ => _ end] => destruct x
         | |- context [if ?x then _ else _] => destruct x
         end;
    intros [= <- <-]; auto.
Qed.

(** X18: an answer other than [{"status": "ok"}] never comes with a
    write: whenever the handler returns an [ignored] answer, every
    store is as it was. *)
Theorem creem_webhook_ignored_writes_nothing (request : Request) (db : DB)
    (r : response) :
  fst (creem_webhook settings hmac_sha256_hexdigest str_encode bytes_decode json_loads
         uuid_of_str request db) = Ok r ->
  r <> [("status", "ok")] ->
  snd (creem_webhook settings hmac_sha256_hexdigest str_encode bytes_decode json_loads
         uuid_of_str request db) = db.
Proof.
  unfold creem_webhook.
  destruct (read_event _ _ _ _ _ _ _) as [[early | c] | e]; simpl; try reflexivity.
  unfold get_db_context.
  destruct (dispatch settings c db) as [[r' | e] db'] eqn:E; simpl; [| reflexivity].
  intros [= <-] Hr. destruct (dispatch_ok _ _ _ _ E); [contradiction | assumption].
Qed.

(** X19: a delivery that is not a recurring one and that the handler
    answers is idempotent: delivered again, it gets the same answer
    and every store stays as the first delivery left it. *)
Theorem creem_webhook_pack_delivery_idempotent (request : Request) (db : DB)
    (c : Checkout) (r : response) :
  read_event settings hmac_sha256_hexdigest str_encode bytes_decode json_loads
    uuid_of_str request = Ok (inr c) ->
  eq_str (c_billing_type c) "recurring"
  || eq_str (c_product_id c) (CREEM_SUBSCRIPTION_PRODUCT_ID settings) = false ->
  fst (creem_webhook settings hmac_sha256_hexdigest str_encode bytes_decode json_loads
         uuid_of_str request db) = Ok r ->
  creem_webhook settings hmac_sha256_hexdigest str_encode bytes_decode json_loads
    uuid_of_str request
    (snd (creem_webhook settings hmac_sha256_hexdigest str_encode bytes_decode
            json_loads uuid_of_str request db))
  = (Ok r,
     snd (creem_webhook settings hmac_sha256_hexdigest str_encode bytes_decode
            json_loads uuid_of_str request db)).
Proof.
  intros Hread Hnr. unfold creem_webhook. rewrite Hread.
  unfold get_db_context, dispatch. rewrite Hnr.
  destruct (_resolve_pack_credits settings (c_product_id c)) as [[| credits | credits] |];
    simpl; try (intros [= <-]; reflexivity).
  - unfold sbind, sret.
    destruct (apply_pack_purchase _ _ _ _ _ _ _ db) as [[[] | e] db'] eqn:E; simpl;
      [| discriminate].
    intros [= <-]. rewrite (apply_pack_purchase_again _ _ _ _ _ _ _ _ _ E). reflexivity.
  - unfold sbind, sret.
    destruct (apply_pack_purchase _ _ _ _ _ _ _ db) as [[[] | e] db'] eqn:E; simpl;
      [| discriminate].
    intros [= <-]. rewrite (apply_pack_purchase_again _ _ _ _ _ _ _ _ _ E). reflexivity.
Qed.

Lemma dispatch_recurring (c : Checkout) (db db' : DB) (r : response) :
  eq_str (c_billing_type c) "recurring"
  || eq_str (c_product_id c) (CREEM_SUBSCRIPTION_PRODUCT_ID settings) = true ->
  dispatch settings c db = (Ok r, db') ->
  r = [("status", "ok")] /\
  balances db' (c_user_id c)
  = (BILLING_MONTHLY_CREDITS settings, snd (balances db (c_user_id c))).
Proof.
  intros Hrec. unfold dispatch. rewrite Hrec.
  unfold sbind, sret, lift.
  destruct (py_get (c_product c) "name") as [plan_name | e]; [| discriminate].
  destruct (grant_monthly_allowance _ _ _ _ _ _ _ _ _ db) as [[sub | e] db1] eqn:Eg;
    [| discriminate].
  destruct (record_subscription_payment _ _ _ _ _ _ _ db1) as [[[] | e] db2] eqn:Er;
    [| discriminate].
  intros [= <- <-]. split; [reflexivity |].
  pose proof (record_subscription_payment_wallets settings db1 (c_user_id c) "creem"
                (match c_event c with
                 | PDict d => dict_get_default d "id" (PStr "")
                 | _ => PNone
                 end) (c_amount c) (c_currency c) (Some (c_metadata c))) as Hw.
  rewrite Er in Hw. simpl in Hw.
  unfold balances at 1. rewrite Hw.
  pose proof (grant_monthly_allowance_balances settings db (c_user_id c) "creem"
                (match c_data c with
                 | PDict d => match dict_get d "subscription" with
                              | PDict sd => dict_get sd "id"
                              | _ => PNone
                              end
                 | _ => PNone
                 end) "active" plan_name None None (Some (c_metadata c))) as Hb.
  rewrite Eg in Hb. exact Hb.
Qed.

(** X20: a recurring delivery that the handler answers is answered
    [ok] and leaves the monthly allowance of the user at
    [BILLING_MONTHLY_CREDITS], whatever it was and whether or not the
    event was recorded before; the prepaid balance is unchanged. *)
Theorem creem_webhook_recurring_resets (request : Request) (db : DB)
    (c : Checkout) (r : response) :
  read_event settings hmac_sha256_hexdigest str_encode bytes_decode json_loads
    uuid_of_str request = Ok (inr c) ->
  eq_str (c_billing_type c) "recurring"
  || eq_str (c_product_id c) (CREEM_SUBSCRIPTION_PRODUCT_ID settings) = true ->
  fst (creem_webhook settings hmac_sha256_hexdigest str_encode bytes_decode json_loads
         uuid_of_str request db) = Ok r ->
  r = [("status", "ok")] /\
  balances (snd (creem_webhook settings hmac_sha256_hexdigest str_encode bytes_decode
                   json_loads uuid_of_str request db)) (c_user_id c)
  = (BILLING_MONTHLY_CREDITS settings, snd (balances db (c_user_id c))).
Proof.
  intros Hread Hrec. unfold creem_webhook. rewrite Hread.
  unfold get_db_context.
  destruct (dispatch settings c db) as [[r' | e] db'] eqn:E; simpl; [| discriminate].
  intros [= <-]. apply (dispatch_recurring c db db' r' Hrec E).
Qed.

(** X21: a [checkout.completed] event that names no user is answered
    [{"status": "ignored", "reason": "missing_user_id"}] and no store
    is written: that is every event whose metadata, once the metadata
    of its subscription is merged into it, holds no truthy [user_id]
    and no truthy [internal_customer_id]. *)
Theorem creem_webhook_missing_user_id (request : Request) (db : DB)
    (event data md : pydict) :
  verify_signature hmac_sha256_hexdigest str_encode (body request)
    (signature_header request) (CREEM_WEBHOOK_SECRET settings) = Ok true ->
  parse_event bytes_decode json_loads (body request) = Ok (PDict event) ->
  dict_get event "eventType" = PStr "checkout.completed" ->
  dict_get_default event "object" (PDict []) = PDict data ->
  merged_metadata (PDict data) = Ok (PDict md) ->
  truthy (dict_get md "user_id") = false ->
  truthy (dict_get md "internal_customer_id") = false ->
  creem_webhook settings hmac_sha256_hexdigest str_encode bytes_decode json_loads
    uuid_of_str request db
  = (Ok [("status", "ignored"); ("reason", "missing_user_id")], db).
Proof.
  unfold creem_webhook, read_event, read_fields.
  intros Hsig Hev Hty Hobj Hmd Hu Hi.
  rewrite Hsig. simpl. rewrite Hev. simpl. rewrite Hty. simpl.
  rewrite Hobj, Hmd. simpl. rewrite Hu. simpl. rewrite Hi. reflexivity.
Qed.

End WebhookFurther.

(** X15, witness: the default settings. *)
Lemma creem_webhook_without_secret_witness :
  creem_webhook default_settings toy_hmac toy_encode toy_decode toy_json toy_uuid
    (signed "subscription") empty_db
  = (Raise (HTTPException 400 "Invalid signature"), empty_db).
Proof.
  apply (creem_webhook_without_secret default_settings toy_hmac toy_encode toy_decode
           toy_json toy_uuid).
  reflexivity.
Defined.

(** X16, witness: the pack of 2000 credits. *)
Lemma resolve_pack_credits_sound_witness :
  exists id pack,
    PStr "prod_pack_2000" = PStr id /\ id <> "" /\
    In pack (BILLING_CREDIT_PACKS shop_settings) /\
    pack_provider_product_id pack = id /\
    pack_credits pack = 2000.
Proof.
  apply (resolve_pack_credits_sound shop_settings (PStr "prod_pack_2000") 2000).
  vm_compute. reflexivity.
Defined.

(** X17, witness: the default packs. *)
Lemma resolve_pack_credits_unconfigured_witness :
  _resolve_pack_credits default_settings (PStr "prod_pack_2000") = None.
Proof.
  apply (resolve_pack_credits_unconfigured default_settings).
  intros pack [<- | [<- | []]]; reflexivity.
Defined.

(** X18, witness: a signed [refund.created] event. *)
Lemma creem_webhook_ignored_writes_nothing_witness :
  snd (deliver "refund" recorded_db) = recorded_db.
Proof.
  apply (creem_webhook_ignored_writes_nothing shop_settings toy_hmac toy_encode
           toy_decode toy_json toy_uuid (signed "refund") recorded_db
           [("status", "ignored")]).
  - vm_compute. reflexivity.
  - discriminate.
Defined.

(** X19, witness: the pack event, delivered twice. *)
Lemma creem_webhook_pack_delivery_idempotent_witness :
  deliver "pack" (snd (deliver "pack" empty_db))
  = (Ok [("status", "ok")], snd (deliver "pack" empty_db)) /\
  balances (snd (deliver "pack" empty_db)) 7%N = (0, 2000).
Proof.
  split.
  - eapply (creem_webhook_pack_delivery_idempotent shop_settings toy_hmac toy_encode
              toy_decode toy_json toy_uuid (signed "pack") empty_db);
      vm_compute; reflexivity.
  - vm_compute. reflexivity.
Defined.

(** X20, witness: the subscription event against a wallet with 47
    monthly credits left and 12 prepaid. *)
Lemma creem_webhook_recurring_resets_witness :
  balances (snd (deliver "subscription" (wallet_db 7%N 47 12))) 7%N = (50, 12).
Proof.
  eapply (proj2 (creem_webhook_recurring_resets shop_settings toy_hmac toy_encode
                   toy_decode toy_json toy_uuid (signed "subscription")
                   (wallet_db 7%N 47 12) _ _
                   ltac:(vm_compute; reflexivity) ltac:(vm_compute; reflexivity)
                   ltac:(vm_compute; reflexivity))).
Defined.

(** X21, witness: an event whose metadata holds an order reference
    only, and whose subscription has metadata of its own, merged into
    it, with an empty [user_id]. *)
Lemma creem_webhook_missing_user_id_witness :
  merged_metadata (PDict [
    (PStr "metadata", PDict [(PStr "order_ref", PStr "A-17")]);
    (PStr "subscription", PDict [(PStr "metadata", PDict [(PStr "plan", PStr "pro")])])])
  = Ok (PDict [(PStr "order_ref", PStr "A-17"); (PStr "plan", PStr "pro")]) /\
  creem_webhook shop_settings toy_hmac toy_encode toy_decode
    (fun _ => Some anonymous_event) toy_uuid (signed "anonymous") recorded_db
  = (Ok [("status", "ignored"); ("reason", "missing_user_id")], recorded_db).
Proof.
  split; [vm_compute; reflexivity |].
  eapply (creem_webhook_missing_user_id shop_settings toy_hmac toy_encode toy_decode
            (fun _ => Some anonymous_event) toy_uuid (signed "anonymous") recorded_db);
    vm_compute; reflexivity.
Defined.

(** ** Checkout *)

Section CheckoutProperties.

Variable settings : Settings.
Variable checkout_settings : CheckoutSettings.
Variable creem_api : HttpRequest -> HttpOutcome.
Variable str_of_uuid : UUID -> string.

Lemma create_checkout_session_run (product_id : string) (customer_email : option string)
    (metadata : option pydict) (success_url cancel_url : string)
    (sent : list HttpRequest) :
  let run := create_checkout_session checkout_settings creem_api product_id
               customer_email metadata success_url cancel_url sent in
  (snd run = sent /\
   fst run = CRaise (ExternalServiceError "CREEM_API_KEY is not configured" None)) \/
  (exists request api_key,
      snd run = request :: sent /\
      CREEM_API_KEY checkout_settings = Some api_key /\ api_key <> "" /\
      req_url request = String.append (CREEM_API_BASE_URL checkout_settings) "/v1/checkouts" /\
      req_headers request = [("x-api-key", api_key)] /\
      dict_lookup (req_json request) "product_id" = Some (PStr product_id) /\
      dict_lookup (req_json request) "success_url" = Some (PStr success_url) /\
      dict_lookup (req_json request) "cancel_url" = Some (PStr cancel_url) /\
      dict_lookup (req_json request) "metadata"
      = Some (PDict (match metadata with Some m => m | None => [] end)) /\
      dict_lookup (req_json request) "customer"
      = match customer_email with
        | None | Some "" => None
        | Some email => Some (PDict [(PStr "email", PStr email)])
        end /\
      match fst run with
      | COk v => exists status_code text,
                   creem_api request = HttpResponse status_code text (Some v) /\
                   status_code < 400
      | CRaise _ => True
      end).
Proof.
  cbv zeta. unfold create_checkout_session.
  destruct (CREEM_API_KEY checkout_settings) as [[| ch key] |] eqn:Ekey;
    [left; split; reflexivity | | left; split; reflexivity].
  right.
  set (request := {| req_url := _; req_json := _; req_headers := _ |}).
  exists request, (String ch key).
  assert (Hfields :
    String ch key <> "" /\
    req_url request = String.append (CREEM_API_BASE_URL checkout_settings) "/v1/checkouts" /\
    req_headers request = [("x-api-key", String ch key)] /\
    dict_lookup (req_json request) "product_id" = Some (PStr product_id) /\
    dict_lookup (req_json request) "success_url" = Some (PStr success_url) /\
    dict_lookup (req_json request) "cancel_url" = Some (PStr cancel_url) /\
    dict_lookup (req_json request) "metadata"
    = Some (PDict (match metadata with Some m => m | None => [] end)) /\
    dict_lookup (req_json request) "customer"
    = match customer_email with
      | None | Some "" => None
      | Some email => Some (PDict [(PStr "email", PStr email)])
      end).
  { subst request. simpl. split; [discriminate |].
    destruct customer_email as [[| c e] |]; repeat split. }
  destruct Hfields as (H1 & H2 & H3 & H4 & H5 & H6 & H7 & H8).
  destruct (creem_api request) as [| status_code text json] eqn:Eapi; simpl.
  - repeat split; assumption.
  - destruct (Z.leb_spec 400 status_code); simpl.
    + repeat split; assumption.
    + destruct json as [v |]; simpl; repeat split; try assumption.
      exists status_code, text. split; [reflexivity | lia].
Qed.

(** X22: a checkout that is refused as a bad request (another
    provider configured, a kind that is neither [subscription] nor
    [credit_pack], no [pack_credits], an unknown pack, a product id
    that is not configured) sends nothing to the provider. *)
Theorem create_checkout_bad_request_sends_nothing (user_id : UUID)
    (user_email : option string) (kind : string) (requested_credits : option Z)
    (sent : list HttpRequest) (message : string) :
  fst (create_checkout settings checkout_settings creem_api str_of_uuid user_id
         user_email kind requested_credits sent) = CRaise (BadRequestError message) ->
  snd (create_checkout settings checkout_settings creem_api str_of_uuid user_id
         user_email kind requested_credits sent) = sent.
Proof.
  unfold create_checkout.
  destruct (negb (String.eqb (BILLING_PROVIDER checkout_settings) "creem"));
    [reflexivity |].
  match goal with
  | |- context [match ?p with COk _ => _ | CRaise _ => _ end] => destruct p as [pid | e]
  end; [| reflexivity].
  pose proof (create_checkout_session_run pid user_email
                (Some [(PStr "user_id", PStr (str_of_uuid user_id))])
                (CREEM_SUCCESS_URL checkout_settings)
                (CREEM_CANCEL_URL checkout_settings) sent) as H.
  cbv zeta in H.
  destruct (create_checkout_session _ _ _ _ _ _ _ sent) as [[v | e] sent'] eqn:E;
    simpl in *.
  - destruct v; simpl; try discriminate.
    destruct (dict_lookup d "checkout_url"); simpl; discriminate.
  - intros [= ->]. destruct H as [[Hs _] | (request & key & _ & _ & _ & _)].
    + exact Hs.
    + unfold create_checkout_session in E.
      destruct (CREEM_API_KEY checkout_settings) as [[| ch k] |]; try discriminate.
      destruct (creem_api _) as [| status_code text json]; try discriminate.
      destruct (400 <=? status_code); try discriminate.
      destruct json; discriminate.
Qed.

(** X23: [create_checkout] sends at most one request.  When it sends
    one, the provider is [creem], an API key is configured and goes in
    the [x-api-key] header, the request goes to [/v1/checkouts] under
    the base URL, its product id is not empty and is the configured
    subscription product (kind [subscription]) or the product of a
    configured pack with the credits asked for (kind [credit_pack]),
    and its metadata names the user. *)
Theorem create_checkout_request (user_id : UUID) (user_email : option string)
    (kind : string) (requested_credits : option Z) (sent : list HttpRequest) :
  let run := create_checkout settings checkout_settings creem_api str_of_uuid user_id
               user_email kind requested_credits sent in
  snd run = sent \/
  exists request api_key product_id,
    snd run = request :: sent /\
    BILLING_PROVIDER checkout_settings = "creem" /\
    CREEM_API_KEY checkout_settings = Some api_key /\ api_key <> "" /\
    req_headers request = [("x-api-key", api_key)] /\
    req_url request = String.append (CREEM_API_BASE_URL checkout_settings) "/v1/checkouts" /\
    dict_lookup (req_json request) "product_id" = Some (PStr product_id) /\
    product_id <> "" /\
    ((kind = "subscription" /\ product_id = CREEM_SUBSCRIPTION_PRODUCT_ID settings) \/
     (kind = "credit_pack" /\
      exists pack wanted,
        requested_credits = Some wanted /\
        In pack (BILLING_CREDIT_PACKS settings) /\
        pack_credits pack = wanted /\
        pack_provider_product_id pack = product_id)) /\
    dict_lookup (req_json request) "metadata"
    = Some (PDict [(PStr "user_id", PStr (str_of_uuid user_id))]) /\
    dict_lookup (req_json request) "success_url"
    = Some (PStr (CREEM_SUCCESS_URL checkout_settings)) /\
    dict_lookup (req_json request) "cancel_url"
    = Some (PStr (CREEM_CANCEL_URL checkout_settings)).
Proof.
  cbv zeta. unfold create_checkout.
  destruct (String.eqb_spec (BILLING_PROVIDER checkout_settings) "creem") as [Hprov | _];
    simpl; [| left; reflexivity].
  assert (Hproduct : forall product_id,
    (if String.eqb kind "subscription" then
       if String.eqb (CREEM_SUBSCRIPTION_PRODUCT_ID settings) "" then
         CRaise (BadRequestError "CREEM_SUBSCRIPTION_PRODUCT_ID is not set")
       else COk (CREEM_SUBSCRIPTION_PRODUCT_ID settings)
     else if String.eqb kind "credit_pack" then
       match requested_credits with
       | None => CRaise (BadRequestError "pack_credits is required for credit_pack checkout")
       | Some wanted =>
           match find (fun item => pack_credits item =? wanted)
                      (BILLING_CREDIT_PACKS settings) with
           | None => CRaise (BadRequestError "Unknown credit pack selected")
           | Some pack =>
               if String.eqb (pack_provider_product_id pack) "" then
                 CRaise (BadRequestError "Credit pack product_id is not configured")
               else COk (pack_provider_product_id pack)
           end
       end
     else CRaise (BadRequestError "Invalid checkout type")) = COk product_id ->
    product_id <> "" /\
    ((kind = "subscription" /\ product_id = CREEM_SUBSCRIPTION_PRODUCT_ID settings) \/
     (kind = "credit_pack" /\
      exists pack wanted,
        requested_credits = Some wanted /\
        In pack (BILLING_CREDIT_PACKS settings) /\
        pack_credits pack = wanted /\
        pack_provider_product_id pack = product_id))).
  { intros product_id.
    destruct (String.eqb_spec kind "subscription") as [Hk | _].
    - destruct (String.eqb_spec (CREEM_SUBSCRIPTION_PRODUCT_ID settings) "") as [| Hne];
        [discriminate |].
      intros [= <-]. split; [exact Hne | left; split; [exact Hk | reflexivity]].
    - destruct (String.eqb_spec kind "credit_pack") as [Hk | _]; [| discriminate].
      destruct requested_credits as [wanted |]; [| discriminate].
      destruct (find _ _) as [pack |] eqn:Ef; [| discriminate].
      destruct (String.eqb_spec (pack_provider_product_id pack) "") as [| Hne];
        [discriminate |].
      intros [= <-]. apply find_some in Ef as [Hin Hc].
      split; [exact Hne |]. right. split; [exact Hk |].
      exists pack, wanted. repeat split; try assumption. apply Z.eqb_eq. exact Hc. }
  match goal with
  | |- context [match ?p with COk _ => _ | CRaise _ => _ end] =>
      destruct p as [pid | e] eqn:Ep
  end; [| left; reflexivity].
  destruct (Hproduct pid eq_refl) as [Hne Hkind].
  pose proof (create_checkout_session_run pid user_email
                (Some [(PStr "user_id", PStr (str_of_uuid user_id))])
                (CREEM_SUCCESS_URL checkout_settings)
                (CREEM_CANCEL_URL checkout_settings) sent) as H.
  cbv zeta in H.
  destruct (create_checkout_session _ _ _ _ _ _ _ sent) as [r sent'] eqn:E; simpl in H.
  assert (Hsent : snd (match r with
                       | COk (PDict response) =>
                           match dict_lookup response "checkout_url" with
                           | Some url => (COk url, sent')
                           | None => (CRaise KeyError, sent')
                           end
                       | COk _ => (CRaise ResponseTypeError, sent')
                       | CRaise e => (CRaise e, sent')
                       end) = sent').
  { destruct r as [[] |]; simpl; try reflexivity.
    destruct (dict_lookup d "checkout_url"); reflexivity. }
  rewrite Hsent.
  destruct H as [[Hs _] | (request & key & Hs & Hkey & Hkne & Hurl & Hhd & Hp & Hsu & Hcu & Hmd & _)].
  - left. exact Hs.
  - right. exists request, key, pid. repeat split; assumption.
Qed.

(** X24: [create_checkout] returns a value only when the provider has
    answered its request with a status below 400 and a JSON object,
    and the value is what that object holds under [checkout_url]. *)
Theorem create_checkout_returns (user_id : UUID) (user_email : option string)
    (kind : string) (requested_credits : option Z) (sent : list HttpRequest)
    (url : pyval) :
  fst (create_checkout settings checkout_settings creem_api str_of_uuid user_id
         user_email kind requested_credits sent) = COk url ->
  exists request status_code text response,
    snd (create_checkout settings checkout_settings creem_api str_of_uuid user_id
           user_email kind requested_credits sent) = request :: sent /\
    creem_api request = HttpResponse status_code text (Some (PDict response)) /\
    status_code < 400 /\
    dict_lookup response "checkout_url" = Some url.
Proof.
  unfold create_checkout.
  destruct (negb (String.eqb (BILLING_PROVIDER checkout_settings) "creem"));
    [discriminate |].
  match goal with
  | |- context [match ?p with COk _ => _ | CRaise _ => _ end] => destruct p as [pid | e]
  end; [| discriminate].
  pose proof (create_checkout_session_run pid user_email
                (Some [(PStr "user_id", PStr (str_of_uuid user_id))])
                (CREEM_SUCCESS_URL checkout_settings)
                (CREEM_CANCEL_URL checkout_settings) sent) as H.
  cbv zeta in H.
  destruct (create_checkout_session _ _ _ _ _ _ _ sent) as [[v | e] sent'] eqn:E;
    simpl in *; [| discriminate].
  destruct H as [[_ H] | (request & key & Hs & _ & _ & _ & _ & _ & _ & _ & _ & _ & Hok)];
    [discriminate |].
  destruct Hok as (status_code & text & Hapi & Hlt).
  destruct v as [| | | | | | response]; simpl; try discriminate.
  destruct (dict_lookup response "checkout_url") as [u |] eqn:Eu; simpl; [| discriminate].
  intros [= <-]. exists request, status_code, text, response.
  repeat split; assumption.
Qed.

End CheckoutProperties.

(** X22, witness: an unknown kind of checkout. *)
Lemma create_checkout_bad_request_sends_nothing_witness :
  snd (create_checkout shop_settings shop_checkout_settings toy_creem_api
         toy_str_of_uuid 7%N None "gift" None []) = [].
Proof.
  apply (create_checkout_bad_request_sends_nothing shop_settings shop_checkout_settings
           toy_creem_api toy_str_of_uuid 7%N None "gift" None []
           "Invalid checkout type").
  vm_compute. reflexivity.
Defined.

(** X24, witness: the checkout of the pack of 2000 credits. *)
Lemma create_checkout_returns_witness :
  exists request status_code text response,
    snd (create_checkout shop_settings shop_checkout_settings toy_creem_api
           toy_str_of_uuid 7%N (Some "user@example.com") "credit_pack" (Some 2000) [])
    = [request] /\
    toy_creem_api request = HttpResponse status_code text (Some (PDict response)) /\
    status_code < 400 /\
    dict_lookup response "checkout_url" = Some (PStr "https://creem.io/c/1").
Proof.
  apply (create_checkout_returns shop_settings shop_checkout_settings toy_creem_api
           toy_str_of_uuid 7%N (Some "user@example.com") "credit_pack" (Some 2000) []).
  vm_compute. reflexivity.
Defined.
